(** * Gallery API route: record normalization, listing filter and sort

    Shallow embedding of the gallery route handlers (GET / POST / PUT) of
    the gallery API: the [pushItem] normalizer that turns a parsed JSON blob
    into a [GalleryItem], the per-type filter, the recency sort, and the
    folder (partition) each handler reads or writes. *)

From Stdlib Require Import String Ascii List ZArith QArith Bool.
From Stdlib Require Import Permutation Sorted Lia.
Import ListNotations.
Open Scope string_scope.
Open Scope Z_scope.
Set Warnings "-register-all".

(* ------------------------------------------------------------------ *)
(** ** JSON values as [response.json()] produces them *)

(** JSON numbers only flow through ([rating], [views], [likes]); they are
    kept as rationals. An object is its list of (key, value) fields, keys
    distinct as [JSON.parse] leaves them. *)
Inductive json : Type :=
| JNull
| JBool (b : bool)
| JNum (n : Q)
| JStr (s : string)
| JArr (xs : list json)
| JObj (fields : list (string * json)).

(** [r[k]] on a parsed object; [None] is [undefined]. *)
Fixpoint lookup (k : string) (fs : list (string * json)) : option json :=
  match fs with
  | [] => None
  | (k', v) :: fs' => if String.eqb k k' then Some v else lookup k fs'
  end.

(** JS truthiness of a JSON value ([NaN] never arises from JSON). *)
Definition json_truthy (v : json) : bool :=
  match v with
  | JNull => false
  | JBool b => b
  | JNum q => negb (Qeq_bool q 0)
  | JStr s => negb (String.eqb s "")
  | JArr _ | JObj _ => true
  end.

(** [data.id] for an arbitrary parsed value: only objects carry fields. *)
Definition prop_id (v : json) : option json :=
  match v with
  | JObj fs => lookup "id" fs
  | _ => None
  end.

(** [getStr] *)
Definition getStr (r : list (string * json)) (k : string) : option string :=
  match lookup k r with
  | Some (JStr s) => Some s
  | _ => None
  end.

Fixpoint strings_of (xs : list json) : list string :=
  match xs with
  | [] => []
  | JStr s :: xs' => s :: strings_of xs'
  | _ :: xs' => strings_of xs'
  end.

(** [getArrStr]: the string elements of an array field, else [[]]. *)
Definition getArrStr (r : list (string * json)) (k : string) : list string :=
  match lookup k r with
  | Some (JArr xs) => strings_of xs
  | _ => []
  end.

(** JS truthiness of a [string | undefined]. *)
Definition truthy_str (o : option string) : bool :=
  match o with
  | Some s => negb (String.eqb s "")
  | None => false
  end.

(** [a || b] on [string | undefined] operands. *)
Definition js_or (a b : option string) : option string :=
  if truthy_str a then a else b.

(** [a || d] with a string literal [d] as last operand. *)
Definition or_else (a : option string) (d : string) : string :=
  match js_or a (Some d) with
  | Some s => s
  | None => d
  end.

(** [r[k] === true] *)
Definition is_true_field (r : list (string * json)) (k : string) : bool :=
  match lookup k r with
  | Some (JBool true) => true
  | _ => false
  end.

(** [typeof r[k] === 'number' ? r[k] : d] *)
Definition num_or (r : list (string * json)) (k : string) (d : Q) : Q :=
  match lookup k r with
  | Some (JNum q) => q
  | _ => d
  end.

(* ------------------------------------------------------------------ *)
(** ** [GalleryItem]: the interface, optional fields as [option] *)

Record GalleryItem : Type := mkGalleryItem {
  id : string;
  title : string;
  content : string;
  author : string;
  imageUrl : option string;
  publishDate : string;
  tags : option (list string);
  isPublished : bool;
  type : string;
  store : option string;
  storeUrl : option string;
  appCategory : option string;
  status : option string;
  name : option string;
  developer : option string;
  description : option string;
  iconUrl : option string;
  screenshotUrls : option (list string);
  rating : option Q;
  downloads : option string;
  version : option string;
  size : option string;
  category : option string;
  views : option Q;
  likes : option Q;
  uploadDate : option string;
  isFeatured : option bool;
  isEvent : option bool;
  adminStoreUrl : option string
}.

(* ------------------------------------------------------------------ *)
(** ** [pushItem]: the normalizer

    [qtype] is the request's [type] query parameter the closure captures;
    [now] is [new Date().toISOString()] at normalization time. *)

Section PushItem.

Variable qtype : string.
Variable now : string.
Variable r : list (string * json).

Definition pickType : string :=
  match getStr r "type" with
  | Some t =>
      if String.eqb t "gallery" || String.eqb t "featured"
         || String.eqb t "events" || String.eqb t "normal"
      then t
      else if String.eqb qtype "" then "gallery" else qtype
  | None => if String.eqb qtype "" then "gallery" else qtype
  end.

Definition pickStatus : string :=
  match getStr r "status" with
  | Some s =>
      if String.eqb s "published" || String.eqb s "in-review"
         || String.eqb s "development"
      then s
      else if is_true_field r "isPublished" then "published" else "development"
  | None => if is_true_field r "isPublished" then "published" else "development"
  end.

Definition pickStore : string :=
  match getStr r "store" with
  | Some s => if String.eqb s "app-store" then "app-store" else "google-play"
  | None => "google-play"
  end.

Definition firstImage : option string :=
  js_or (getStr r "imageUrl")
        (js_or (getStr r "iconUrl") (hd_error (getArrStr r "screenshotUrls"))).

Definition screenshots : list string := getArrStr r "screenshotUrls".

Definition pickCategory : string :=
  match getStr r "appCategory" with
  | Some c =>
      if String.eqb c "featured" || String.eqb c "events" || String.eqb c "normal"
      then c
      else if String.eqb qtype "featured" then "featured"
      else if String.eqb qtype "events" then "events" else "normal"
  | None =>
      if String.eqb qtype "featured" then "featured"
      else if String.eqb qtype "events" then "events" else "normal"
  end.

(** [screenshots.length > 0 ? screenshots : (firstImage ? [firstImage] : [])] *)
Definition screenshot_list : list string :=
  match screenshots with
  | _ :: _ => screenshots
  | [] =>
      match firstImage with
      | Some s => if String.eqb s "" then [] else [s]
      | None => []
      end
  end.

Definition normalized (i : string) : GalleryItem := {|
  id := i;
  title := or_else (js_or (getStr r "title") (getStr r "name")) "";
  content := or_else (js_or (getStr r "content") (getStr r "description")) "";
  author := or_else (js_or (getStr r "author") (getStr r "developer")) "";
  imageUrl := firstImage;
  publishDate := or_else (js_or (getStr r "publishDate") (getStr r "uploadDate")) now;
  tags := Some (getArrStr r "tags");
  isPublished := is_true_field r "isPublished" || String.eqb pickStatus "published";
  type := pickType;
  store := Some pickStore;
  storeUrl := getStr r "storeUrl";
  appCategory := Some pickCategory;
  status := Some pickStatus;
  name := Some (or_else (js_or (getStr r "name") (getStr r "title")) "");
  developer := Some (or_else (js_or (getStr r "developer") (getStr r "author")) "");
  description := Some (or_else (js_or (getStr r "description") (getStr r "content")) "");
  iconUrl := Some (or_else (js_or (getStr r "iconUrl") firstImage) "");
  screenshotUrls := Some screenshot_list;
  rating := Some (num_or r "rating" (9 # 2));
  downloads := Some (or_else (getStr r "downloads") "1K+");
  version := Some (or_else (getStr r "version") "1.0.0");
  size := Some (or_else (getStr r "size") "50MB");
  category := Some (or_else (getStr r "category") "");
  views := Some (num_or r "views" 0);
  likes := Some (num_or r "likes" 0);
  uploadDate := Some (or_else (js_or (getStr r "uploadDate") (getStr r "publishDate")) now);
  isFeatured := Some (is_true_field r "isFeatured");
  isEvent := Some (is_true_field r "isEvent");
  adminStoreUrl := getStr r "adminStoreUrl"
|}.

End PushItem.

(** [pushItem raw]: [Some item] is the record pushed, [None] an early
    return. [null] fails [!r]; strings, numbers and booleans fail
    [typeof r !== 'object']; arrays pass it but have no [id]. *)
Definition normalize (qtype now : string) (raw : json) : option GalleryItem :=
  match raw with
  | JObj r =>
      match getStr r "id" with
      | Some i => if String.eqb i "" then None else Some (normalized qtype now r i)
      | None => None
      end
  | _ => None
  end.

(* ------------------------------------------------------------------ *)
(** ** The blob store as the handlers see it *)

Record blob : Type := mkBlob { pathname : string; url : string }.

(** Outcome of [fetch(url, { cache: 'no-store' })] followed, when
    [response.ok], by [response.json()]: [FetchResponse false _] is a non-ok
    response, [FetchResponse true None] a body that does not parse. *)
Inductive fetch_result : Type :=
| FetchThrows
| FetchResponse (ok : bool) (body : option json).

(** The collaborators of [GET]: [list({ prefix })] ([None] when the call
    rejects), [fetch], and the clock as [new Date().toISOString()]. *)
Record env : Type := mkEnv {
  list_blobs : string -> option (list blob);
  fetch_url : string -> fetch_result;
  now_iso : string
}.

(** [pathname.endsWith(suf)] *)
Fixpoint ends_with (suf s : string) : bool :=
  String.eqb suf s ||
  match s with
  | EmptyString => false
  | String _ s' => ends_with suf s'
  end.

(** The [folderPaths] set, in insertion order. *)
Definition folder_paths (t : string) : list string :=
  if String.eqb t "gallery" || String.eqb t "normal"
  then ["gallery-gallery"; "gallery-normal"]
  else if String.eqb t "featured" then ["gallery-featured"]
  else if String.eqb t "events" then ["gallery-events"]
  else [].

(** The sequential [for ... of folderPaths] loop of [list] calls; a
    rejected call aborts the loop (it propagates to the outer [catch]). *)
Fixpoint list_folders (lb : string -> option (list blob)) (fs : list string)
  : option (list blob) :=
  match fs with
  | [] => Some []
  | f :: fs' =>
      match lb (f ++ "/") with
      | None => None
      | Some bs =>
          match list_folders lb fs' with
          | None => None
          | Some rest => Some (bs ++ rest)%list
          end
      end
  end.

(** [jsonFiles] *)
Definition json_files (lb : string -> option (list blob)) (t : string)
  : option (list blob) :=
  match list_folders lb (folder_paths t) with
  | None => None
  | Some bs => Some (filter (fun b => ends_with ".json" (pathname b)) bs)
  end.

Definition option_to_list {A} (o : option A) : list A :=
  match o with Some x => [x] | None => [] end.

(** [if (Array.isArray(data)) data.forEach(pushItem);
     else if (data && data.id) pushItem(data);] *)
Definition items_of_data (t now : string) (data : json) : list GalleryItem :=
  match data with
  | JArr xs => flat_map (fun x => option_to_list (normalize t now x)) xs
  | _ =>
      if json_truthy data &&
         match prop_id data with Some v => json_truthy v | None => false end
      then option_to_list (normalize t now data)
      else []
  end.

(** The body of the per-file [try]; a throw or a non-ok response adds
    nothing ([catch (_error) {}]). *)
Definition items_of_file (e : env) (t : string) (b : blob) : list GalleryItem :=
  match fetch_url e (url b) with
  | FetchResponse true (Some data) => items_of_data t (now_iso e) data
  | _ => []
  end.

(** [items] after the loop over [jsonFiles]; [None] when a [list] call
    rejected. *)
Definition collect_items (e : env) (t : string) : option (list GalleryItem) :=
  match json_files (list_blobs e) t with
  | None => None
  | Some fs => Some (flat_map (items_of_file e t) fs)
  end.

(** [item.status === s] *)
Definition status_is (it : GalleryItem) (s : string) : bool :=
  match status it with
  | Some s' => String.eqb s' s
  | None => false
  end.

(** [filteredItems] *)
Definition filter_items (t : string) (items : list GalleryItem) : list GalleryItem :=
  if String.eqb t "gallery" || String.eqb t "normal"
  then filter (fun it => isPublished it
                         || status_is it "in-review"
                         || status_is it "published") items
  else filter (fun it => isPublished it) items.

(* ------------------------------------------------------------------ *)
(** ** The recency sort *)

Section Sort.

(** [new Date(s).getTime()] on a string; [None] is [NaN]. *)
Variable date_value : string -> option Z.

(** [new Date(a.uploadDate || a.publishDate || 0).getTime()] *)
Definition date_key (a : GalleryItem) : option Z :=
  if truthy_str (uploadDate a) then
    match uploadDate a with Some s => date_value s | None => Some 0 end
  else if String.eqb (publishDate a) "" then Some 0
  else date_value (publishDate a).

(** The comparator [(a, b) => bd - ad]; a [NaN] result is read as [+0], as
    [Array.prototype.sort] does (SortCompare). *)
Definition compare_items (a b : GalleryItem) : Z :=
  match date_key a, date_key b with
  | Some x, Some y => y - x
  | _, _ => 0
  end.

(** [Array.prototype.sort] with that comparator, as a stable insertion sort:
    an element goes after exactly those it compares greater than
    ([compare_items a y > 0]). The language requires stability, so for a
    consistent comparator every conforming engine returns this order. *)
Fixpoint insert_item (a : GalleryItem) (l : list GalleryItem) : list GalleryItem :=
  match l with
  | [] => [a]
  | y :: ys => if 0 <? compare_items a y then y :: insert_item a ys else a :: y :: ys
  end.

Fixpoint sort_items (l : list GalleryItem) : list GalleryItem :=
  match l with
  | [] => []
  | a :: l' => insert_item a (sort_items l')
  end.

(** The array [GET] returns for a given [items]. *)
Definition listing (t : string) (items : list GalleryItem) : list GalleryItem :=
  sort_items (filter_items t items).

End Sort.

(* ------------------------------------------------------------------ *)
(** ** [GET] *)

Inductive body_kind : Type :=
| ErrorBody (msg : string)
| ItemsBody (items : list GalleryItem).

Record response : Type := mkResponse { resp_status : Z; resp_body : body_kind }.

(** [GET(request)]: [qtype] is [searchParams.get('type')]. Every path of the
    handler returns a response; a rejected [list] call lands in the outer
    [catch] (status 500). *)
Definition GET (e : env) (date_value : string -> option Z) (qtype : option string)
  : response :=
  match qtype with
  | None => mkResponse 400 (ErrorBody "Type parameter is required")
  | Some t =>
      if String.eqb t "" then mkResponse 400 (ErrorBody "Type parameter is required")
      else match collect_items e t with
           | None => mkResponse 500 (ErrorBody "갤러리 조회 실패")
           | Some items => mkResponse 200 (ItemsBody (listing date_value t items))
           end
  end.

(* ------------------------------------------------------------------ *)
(** ** Where [POST] and [PUT] write the JSON blob *)

(** [jsonFolder] in [POST] *)
Definition post_json_folder (t : string) : string :=
  if String.eqb t "gallery" || String.eqb t "normal" then "gallery-gallery"
  else "gallery-" ++ t.

(** [jsonFolder] in [PUT] *)
Definition put_json_folder (t : string) : string :=
  if String.eqb t "gallery" then "gallery-gallery" else "gallery-" ++ t.

(** Pathname of the blob [put(`${jsonFolder}/${id}.json`, ...)] stores;
    [sfx] is the random suffix the store may insert before the extension
    (empty when it adds none). *)
Definition json_blob_path (folder i sfx : string) : string :=
  folder ++ "/" ++ i ++ sfx ++ ".json".

(** A store as a list of blobs: [put] replaces any blob at the same
    pathname, [list({ prefix })] returns the blobs under the prefix. *)
Definition put_blob (st : list blob) (b : blob) : list blob :=
  b :: filter (fun b' => negb (String.eqb (pathname b') (pathname b))) st.

Definition store_list (st : list blob) (p : string) : option (list blob) :=
  Some (filter (fun b => String.prefix p (pathname b)) st).

(* ------------------------------------------------------------------ *)
(** ** [new Date(s).getTime()] on the ISO form [YYYY-MM-DDTHH:mm:ss.sssZ]

    The form [toISOString] writes. Any other string is [NaN] here. *)

Definition digit (c : ascii) : option Z :=
  let n := Z.of_nat (nat_of_ascii c) in
  if (48 <=? n) && (n <=? 57) then Some (n - 48) else None.

Fixpoint digits_val (acc : Z) (cs : list ascii) : option Z :=
  match cs with
  | [] => Some acc
  | c :: cs' =>
      match digit c with
      | Some d => digits_val (acc * 10 + d) cs'
      | None => None
      end
  end.

Definition is_leap (y : Z) : bool :=
  ((y mod 4 =? 0) && negb (y mod 100 =? 0)) || (y mod 400 =? 0).

Definition days_in_month (y m : Z) : Z :=
  if m =? 2 then (if is_leap y then 29 else 28)
  else if (m =? 4) || (m =? 6) || (m =? 9) || (m =? 11) then 30 else 31.

(** Days since 1970-01-01 of a proleptic Gregorian date. *)
Definition days_from_civil (y m d : Z) : Z :=
  let y' := if m <=? 2 then y - 1 else y in
  let era := y' / 400 in
  let yoe := y' - era * 400 in
  let mp := (m + 9) mod 12 in
  let doy := (153 * mp + 2) / 5 + d - 1 in
  let doe := yoe * 365 + yoe / 4 - yoe / 100 + doy in
  era * 146097 + doe - 719468.

Definition iso_time_value (s : string) : option Z :=
  match list_ascii_of_string s with
  | [y1; y2; y3; y4; c1; m1; m2; c2; d1; d2; cT; h1; h2; c3; i1; i2; c4;
     s1; s2; c5; f1; f2; f3; cZ] =>
      if Ascii.eqb c1 "-"%char && Ascii.eqb c2 "-"%char && Ascii.eqb cT "T"%char
         && Ascii.eqb c3 ":"%char && Ascii.eqb c4 ":"%char
         && Ascii.eqb c5 "."%char && Ascii.eqb cZ "Z"%char
      then
        match digits_val 0 [y1; y2; y3; y4], digits_val 0 [m1; m2],
              digits_val 0 [d1; d2], digits_val 0 [h1; h2], digits_val 0 [i1; i2],
              digits_val 0 [s1; s2], digits_val 0 [f1; f2; f3] with
        | Some y, Some mo, Some d, Some h, Some mi, Some sec, Some ms =>
            if (1 <=? mo) && (mo <=? 12) && (1 <=? d) && (d <=? days_in_month y mo)
               && ((h <? 24) || ((h =? 24) && (mi =? 0) && (sec =? 0) && (ms =? 0)))
               && (mi <? 60) && (sec <? 60)
            then Some ((((days_from_civil y mo d * 24 + h) * 60 + mi) * 60 + sec)
                       * 1000 + ms)
            else None
        | _, _, _, _, _, _, _ => None
        end
      else None
  | _ => None
  end.

Example iso_time_value_2024 :
  iso_time_value "2024-01-01T00:00:00.000Z" = Some 1704067200000.
Proof. vm_compute. reflexivity. Qed.

Example iso_time_value_epoch :
  iso_time_value "1970-01-01T00:00:00.000Z" = Some 0.
Proof. vm_compute. reflexivity. Qed.

Example iso_time_value_garbage : iso_time_value "not a date" = None.
Proof. vm_compute. reflexivity. Qed.

(* ------------------------------------------------------------------ *)
(** ** The blob store the mutation handlers act on *)

(** A stored blob: its pathname, the URL it is served at, and its parsed
    JSON content ([None] for an uploaded, non-JSON file). *)
Record stored : Type := mkStored { s_path : string; s_url : string; s_data : option json }.

Definition to_blob (s : stored) : blob := mkBlob (s_path s) (s_url s).

(** [list({ prefix })], in store order. *)
Definition store_blobs (st : list stored) (p : string) : list blob :=
  map to_blob (filter (fun s => String.prefix p (s_path s)) st).

(** [put(path, body)]: the blob is served at [base ++ path]; a blob already
    at [path] is replaced. *)
Definition store_put (base : string) (st : list stored) (p : string) (d : option json)
  : list stored :=
  mkStored p (base ++ p) d :: filter (fun s => negb (String.eqb (s_path s) p)) st.

(** [del(url)] *)
Definition store_del (st : list stored) (u : string) : list stored :=
  filter (fun s => negb (String.eqb (s_url s) u)) st.

(** [fetch(url)] then [response.json()] against the store. *)
Definition store_fetch (st : list stored) (u : string) : fetch_result :=
  match find (fun s => String.eqb (s_url s) u) st with
  | Some s => FetchResponse true (s_data s)
  | None => FetchResponse false None
  end.

(** The collaborators [GET] sees when it runs against the store. *)
Definition env_of_store (st : list stored) (now : string) : env := {|
  list_blobs := fun p => Some (store_blobs st p);
  fetch_url := store_fetch st;
  now_iso := now
|}.

(** [allBlobs] in [PUT] and [DELETE]: the [list] results of [folderPaths]
    pushed one folder after the other. *)
Definition all_blobs (st : list stored) (t : string) : list blob :=
  flat_map (fun f => store_blobs st (f ++ "/")) (folder_paths t).

(** [s.includes(sub)] *)
Fixpoint includes (sub s : string) : bool :=
  String.prefix sub s ||
  match s with
  | EmptyString => false
  | String _ s' => includes sub s'
  end.

(** [s.split(c)] for a one-character separator. *)
Fixpoint split_on (c : ascii) (s : string) : list string :=
  match s with
  | EmptyString => [""]
  | String a s' =>
      if Ascii.eqb a c then "" :: split_on c s'
      else match split_on c s' with
           | [] => [String a ""]
           | w :: ws => String a w :: ws
           end
  end.

(** [String(v)], as a template literal converts a parsed JSON value;
    [num_str] is [Number.prototype.toString]. [None] is the [TypeError]
    of [ToPrimitive]: an object with an own [toString] key (never callable
    after [JSON.parse]) has no callable method giving a primitive. An array
    is [join(',')] of its elements, [null] giving the empty string. *)
Fixpoint js_string (num_str : Q -> string) (v : json) : option string :=
  match v with
  | JNull => Some "null"
  | JBool true => Some "true"
  | JBool false => Some "false"
  | JNum q => Some (num_str q)
  | JStr s => Some s
  | JArr xs =>
      let fix elems (ys : list json) : option (list string) :=
        match ys with
        | [] => Some []
        | JNull :: ys' => option_map (cons "") (elems ys')
        | y :: ys' =>
            match js_string num_str y, elems ys' with
            | Some s, Some r => Some (s :: r)
            | _, _ => None
            end
        end in
      option_map (String.concat ",") (elems xs)
  | JObj fs =>
      match lookup "toString" fs with
      | Some _ => None
      | None => Some "[object Object]"
      end
  end.

(** [{ ...item, k: v }] on an object with distinct keys. *)
Definition with_field (k : string) (v : json) (fs : list (string * json))
  : list (string * json) :=
  if existsb (fun kv => String.eqb (fst kv) k) fs
  then map (fun kv => if String.eqb (fst kv) k then (k, v) else kv) fs
  else (fs ++ [(k, v)])%list.

(** [item.id] is truthy. *)
Definition id_truthy (fs : list (string * json)) : bool :=
  match lookup "id" fs with Some v => json_truthy v | None => false end.

(** Mutation handler responses. *)
Inductive mut_kind : Type :=
| MutError (msg : string)
| MutItem (item : json) (jsonUrl : string)
| MutDone.

Record mut_response : Type := mkMutResponse { mut_status : Z; mut_body : mut_kind }.

(** What the handlers take from the runtime: the store's URL prefix, the
    clock ([toISOString] and [Date.now()] as text), the random part of a new
    id ([Math.random().toString(36).substr(2, 9)]), [String.prototype.trim]
    and [Number.prototype.toString]; [rt_path p] is the pathname the store
    gives a blob [put] at [p] ([p] itself, or [p] with a random suffix before
    the extension). *)
Record runtime : Type := mkRuntime {
  rt_base : string;
  rt_path : string -> string;
  rt_now_iso : string;
  rt_now_ms : string;
  rt_rand : string;
  rt_trim : string -> string;
  rt_num_str : Q -> string
}.

(** A [FormDataEntryValue]: a string, or a [File] (its [name]). *)
Inductive form_value : Type :=
| FText (s : string)
| FFile (name : string).

(** A [POST] body: the parsed JSON when the content type includes
    [application/json], else the entries of the multipart form; [None]
    when the body does not parse ([request.json()] or
    [request.formData()] rejects). *)
Inductive post_request : Type :=
| PostJson (body : option json)
| PostForm (fields : option (list (string * form_value))).

(** [formData.get(k)]: the first entry named [k], or [null]. *)
Fixpoint form_get (fs : list (string * form_value)) (k : string) : option form_value :=
  match fs with
  | [] => None
  | (k', v) :: fs' => if String.eqb k k' then Some v else form_get fs' k
  end.

(** The truthiness of [formData.get(k)]: a [File] is an object. *)
Definition form_truthy (o : option form_value) : bool :=
  match o with
  | Some (FText s) => negb (String.eqb s "")
  | Some (FFile _) => true
  | None => false
  end.

(** An entry as [JSON.stringify] writes it: a [File] has no own enumerable
    property. *)
Definition form_json (v : form_value) : json :=
  match v with
  | FText s => JStr s
  | FFile _ => JObj []
  end.

(** [formData.get(k) || d] *)
Definition form_or (o : option form_value) (d : json) : json :=
  match o with
  | Some v => if form_truthy o then form_json v else d
  | None => d
  end.

(** [k: formData.get(k) || undefined] in an object literal: [undefined]
    is dropped by [JSON.stringify]. *)
Definition form_opt_field (k : string) (o : option form_value) : list (string * json) :=
  match o with
  | Some v => if form_truthy o then [(k, form_json v)] else []
  | None => []
  end.

(** [formData.get(k) === s] *)
Definition form_is (o : option form_value) (s : string) : bool :=
  match o with
  | Some (FText v) => String.eqb v s
  | _ => false
  end.

(** [const { item } = body]: [null] throws; a primitive or an array has no
    [item]. *)
Definition body_item (body : json) : option (option json) :=
  match body with
  | JNull => None
  | JObj fs => Some (lookup "item" fs)
  | _ => Some None
  end.

(** An optional property of the object literal: [undefined] is dropped by
    [JSON.stringify]. *)
Definition opt_field (k : string) (v : option string) : list (string * json) :=
  match v with Some s => [(k, JStr s)] | None => [] end.

(** [tags ? tags.split(',').map(tag => tag.trim()) : []]; [None] when it
    throws: a [File] has no [split]. *)
Definition form_tags (rt : runtime) (o : option form_value) : option (list json) :=
  match o with
  | Some (FFile _) => None
  | Some (FText s) =>
      Some (if String.eqb s "" then []
            else map (fun x => JStr (rt_trim rt x)) (split_on "," s))
  | None => Some []
  end.

(** The [galleryItem] the form path of [POST] builds, as it is stored;
    [None] when building it throws ([form_tags]). *)
Definition form_item (rt : runtime) (t i : string) (form : list (string * form_value))
  (title content author : form_value) (imageUrl : option string) : option json :=
  let isPub := form_is (form_get form "isPublished") "true" in
  let appCategory := form_get form "appCategory" in
  match form_tags rt (form_get form "tags") with
  | None => None
  | Some tl =>
  Some (JObj ([("id", JStr i); ("title", form_json title); ("content", form_json content);
               ("author", form_json author)] ++
              opt_field "imageUrl" imageUrl ++
              [("publishDate", JStr (rt_now_iso rt));
               ("tags", JArr tl);
               ("isPublished", JBool isPub);
               ("status", form_or (form_get form "status")
                                  (JStr (if isPub then "published" else "development")));
               ("type", JStr t);
               ("store", form_or (form_get form "store") (JStr "google-play"))] ++
              form_opt_field "storeUrl" (form_get form "storeUrl") ++
              [("appCategory", form_or appCategory (JStr "normal"));
               ("name", form_json title); ("developer", form_json author);
               ("description", form_json content)] ++
              opt_field "iconUrl" imageUrl ++
              [("screenshotUrls", JArr (if truthy_str imageUrl
                                        then match imageUrl with
                                             | Some u => [JStr u] | None => [] end
                                        else []));
               ("rating", JNum (9 # 2)); ("downloads", JStr "1K+");
               ("version", JStr "1.0.0"); ("size", JStr "50MB"); ("category", JStr "");
               ("views", JNum 0); ("likes", JNum 0);
               ("uploadDate", JStr (rt_now_iso rt));
               ("isFeatured", JBool (form_is appCategory "featured"));
               ("isEvent", JBool (form_is appCategory "events"))])%list)
  end.

Definition POST (rt : runtime) (qtype : option string) (req : post_request)
  (st : list stored) : mut_response * list stored :=
  match qtype with
  | None => (mkMutResponse 400 (MutError "Type parameter is required"), st)
  | Some t =>
    if String.eqb t "" then (mkMutResponse 400 (MutError "Type parameter is required"), st)
    else match req with
    | PostJson None => (mkMutResponse 500 (MutError "갤러리 생성 실패"), st)
    | PostJson (Some body) =>
        match body_item body with
        | None => (mkMutResponse 500 (MutError "갤러리 생성 실패"), st)
        | Some (Some (JObj fs)) =>
            if id_truthy fs then
              let obj := JObj (with_field "type" (JStr t) fs) in
              let idv := match lookup "id" fs with
                         | Some v => js_string (rt_num_str rt) v | None => Some "" end in
              match idv with
              | None => (mkMutResponse 500 (MutError "갤러리 생성 실패"), st)
              | Some idv =>
                  let path := rt_path rt (post_json_folder t ++ "/" ++ idv ++ ".json") in
                  (mkMutResponse 200 (MutItem obj (rt_base rt ++ path)),
                   store_put (rt_base rt) st path (Some obj))
              end
            else (mkMutResponse 400 (MutError "Item data and ID are required"), st)
        | Some _ => (mkMutResponse 400 (MutError "Item data and ID are required"), st)
        end
    | PostForm None => (mkMutResponse 500 (MutError "갤러리 생성 실패"), st)
    | PostForm (Some form) =>
        match form_get form "title", form_get form "content", form_get form "author" with
        | Some title, Some content, Some author =>
            if negb (form_truthy (Some title) && form_truthy (Some content)
                     && form_truthy (Some author))
            then (mkMutResponse 400 (MutError "필수 필드가 누락되었습니다"), st)
            else
              let i := t ++ "-" ++ rt_now_ms rt ++ "-" ++ rt_rand rt in
              (** [if (file)]: a non-empty string entry has no [name], and
                  [file.name.split] throws before any write; the image goes to
                  [imageFolder], the same expression as [jsonFolder] *)
              let upload :=
                match form_get form "file" with
                | Some (FFile fname) =>
                    let ipath := rt_path rt (post_json_folder t ++ "/" ++ i ++ "." ++
                                             last (split_on "." fname) "") in
                    Some (Some (rt_base rt ++ ipath), store_put (rt_base rt) st ipath None)
                | Some (FText s) => if String.eqb s "" then Some (None, st) else None
                | None => Some (None, st)
                end in
              match upload with
              | None => (mkMutResponse 500 (MutError "갤러리 생성 실패"), st)
              | Some (imageUrl, st1) =>
                  match form_item rt t i form title content author imageUrl with
                  | None => (mkMutResponse 500 (MutError "갤러리 생성 실패"), st1)
                  | Some obj =>
                      let path := rt_path rt (post_json_folder t ++ "/" ++ i ++ ".json") in
                      (mkMutResponse 200 (MutItem obj (rt_base rt ++ path)),
                       store_put (rt_base rt) st1 path (Some obj))
                  end
              end
        | _, _, _ => (mkMutResponse 400 (MutError "필수 필드가 누락되었습니다"), st)
        end
    end
  end.

(** The JSON blob of [id] among [allBlobs]: [endsWith('.json')] and
    [includes(`/${id}.json`)]. *)
Definition json_blob_of (i : string) (b : blob) : bool :=
  ends_with ".json" (pathname b) && includes ("/" ++ i ++ ".json") (pathname b).

Definition PUT (rt : runtime) (qtype : option string) (body : option json)
  (st : list stored) : mut_response * list stored :=
  match qtype with
  | None => (mkMutResponse 400 (MutError "Type parameter is required"), st)
  | Some t =>
    if String.eqb t "" then (mkMutResponse 400 (MutError "Type parameter is required"), st)
    else match body with
    | None => (mkMutResponse 500 (MutError "갤러리 편집 실패"), st)
    | Some b =>
        match body_item b with
        | None => (mkMutResponse 500 (MutError "갤러리 편집 실패"), st)
        | Some (Some (JObj fs)) =>
            if id_truthy fs then
              let idv := match lookup "id" fs with
                         | Some v => js_string (rt_num_str rt) v | None => Some "" end in
              match idv with
              | None =>
                  (** the callback of [find] evaluates [`/${item.id}.json`] only
                      for a pathname ending in [.json], and then throws *)
                  if existsb (fun b => ends_with ".json" (pathname b)) (all_blobs st t)
                  then (mkMutResponse 500 (MutError "갤러리 편집 실패"), st)
                  else (mkMutResponse 404 (MutError "Item not found"), st)
              | Some idv =>
              match find (json_blob_of idv) (all_blobs st t) with
              | None => (mkMutResponse 404 (MutError "Item not found"), st)
              | Some old =>
                  let st1 := store_del st (url old) in
                  let path := rt_path rt (put_json_folder t ++ "/" ++ idv ++ ".json") in
                  (mkMutResponse 200 (MutItem (JObj fs) (rt_base rt ++ path)),
                   store_put (rt_base rt) st1 path (Some (JObj fs)))
              end
              end
            else (mkMutResponse 400 (MutError "Item data and ID are required"), st)
        | Some _ => (mkMutResponse 400 (MutError "Item data and ID are required"), st)
        end
    end
  end.

Definition DELETE (qtype qid : option string) (st : list stored)
  : mut_response * list stored :=
  match qtype, qid with
  | Some t, Some i =>
      if String.eqb t "" || String.eqb i "" then
        (mkMutResponse 400 (MutError "Type and ID parameters are required"), st)
      else
        let bs := all_blobs st t in
        match find (json_blob_of i) bs with
        | None => (mkMutResponse 404 (MutError "Item not found"), st)
        | Some jf =>
            let st1 := store_del st (url jf) in
            match find (fun b => includes ("/" ++ i ++ ".") (pathname b)
                                 && negb (ends_with ".json" (pathname b))) bs with
            | Some img => (mkMutResponse 200 MutDone, store_del st1 (url img))
            | None => (mkMutResponse 200 MutDone, st1)
            end
      end
  | _, _ => (mkMutResponse 400 (MutError "Type and ID parameters are required"), st)
  end.

(* ------------------------------------------------------------------ *)
(** ** [loadItems] in the gallery manager, the caller of [GET] *)

(** [queryType]: the [normal] view is read through [gallery]. *)
Definition query_type (v : string) : string :=
  if String.eqb v "normal" then "gallery" else v.

(** The items [loadItems] passes to [setItems]; [None] leaves them as they
    were (a non-ok response, or a body that is not an array). *)
Definition load_items (v : string) (resp : response) : option (list GalleryItem) :=
  if (200 <=? resp_status resp) && (resp_status resp <? 300) then
    match resp_body resp with
    | ItemsBody data =>
        if String.eqb (query_type v) "gallery"
        then Some (filter (fun it => status_is it "published" || status_is it "in-review"
                                     || status_is it "development") data)
        else Some (filter (fun it => status_is it "published") data)
    | ErrorBody _ => None
    end
  else None.

(** The four types the handlers route to folders. *)
Definition gallery_types : list string := ["gallery"; "normal"; "featured"; "events"].

(* ------------------------------------------------------------------ *)
(** ** Statement vocabulary *)

(** The three statuses [pickStatus] may return. *)
Definition status_values : list string := ["published"; "in-review"; "development"].

(** A [string | undefined] that JS treats as false: absent or empty. *)
Definition falsy (o : option string) : Prop := forall s, o = Some s -> s = "".

(** The field read [getStr(modern) || getStr(legacy) || ''], stated as an
    alias resolution: a non-empty modern string wins; otherwise the legacy
    string, or [""]. *)
Definition alias_resolved (r : list (string * json)) (modern legacy : string)
  (v : string) : Prop :=
  (forall s, getStr r modern = Some s -> s <> "" -> v = s) /\
  (falsy (getStr r modern) ->
   v = match getStr r legacy with Some s => s | None => "" end).

(** A response whose status is one of [codes]. *)
Definition status_in (resp : response) (codes : list Z) : Prop :=
  In (resp_status resp) codes.

(** Removing from every listing the blobs served at [u]. *)
Definition drop_url (u : string) (e : env) : env := {|
  list_blobs := fun p =>
    match list_blobs e p with
    | Some bs => Some (filter (fun b => negb (String.eqb (url b) u)) bs)
    | None => None
    end;
  fetch_url := fetch_url e;
  now_iso := now_iso e
|}.

(** A fetch that contributes nothing: it throws, is not ok, or its body
    does not parse. *)
Definition fetch_fails (f : fetch_result) : Prop :=
  match f with
  | FetchResponse true (Some _) => False
  | _ => True
  end.

(** The valid time values along a sequence ([NaN]s skipped). *)
Definition valid_keys (dv : string -> option Z) (l : list GalleryItem) : list Z :=
  flat_map (fun a => match date_key dv a with Some k => [k] | None => [] end) l.

(** Most recent first: the time values never increase along [out]. *)
Definition sorted_desc (dv : string -> option Z) (out : list GalleryItem) : Prop :=
  Sorted Z.ge (valid_keys dv out).

(** Stability for the sort's comparator: for every input element [x], the
    elements that compare equal to [x] keep their input order in [out]. *)
Definition stable (dv : string -> option Z) (inp out : list GalleryItem) : Prop :=
  forall x, In x inp ->
    filter (fun y => compare_items dv x y =? 0) out =
    filter (fun y => compare_items dv x y =? 0) inp.

(** [a] is at least as recent as [b], both dates valid. *)
Definition key_ge (dv : string -> option Z) (a b : GalleryItem) : Prop :=
  match date_key dv a, date_key dv b with
  | Some x, Some y => y <= x
  | _, _ => False
  end.

(** A sample [featured] blob: one JSON array with three published records,
    the middle one with an upload date that is not a date. *)
Definition sample_array : json :=
  JArr [JObj [("id", JStr "jan"); ("isPublished", JBool true);
              ("uploadDate", JStr "2024-01-01T00:00:00.000Z")];
        JObj [("id", JStr "odd"); ("isPublished", JBool true);
              ("uploadDate", JStr "next week")];
        JObj [("id", JStr "jun"); ("isPublished", JBool true);
              ("uploadDate", JStr "2024-06-01T00:00:00.000Z")]].

Definition sample_env : env := {|
  list_blobs := fun p =>
    if String.eqb p "gallery-featured/"
    then Some [mkBlob "gallery-featured/list.json" "https://blob.example/list.json"]
    else Some [];
  fetch_url := fun _ => FetchResponse true (Some sample_array);
  now_iso := "2024-03-01T00:00:00.000Z"
|}.

(** A sample stored record: status [in-review] with the legacy flag set. *)
Definition sample_raw : list (string * json) :=
  [("id", JStr "w1"); ("title", JStr "Bar"); ("status", JStr "in-review");
   ("isPublished", JBool true); ("imageUrl", JStr "https://img.example/w1.png");
   ("uploadDate", JStr "2024-02-01T00:00:00.000Z")].

Definition sample_now : string := "2024-03-01T00:00:00.000Z".

Definition sample_item : GalleryItem := normalized "gallery" sample_now sample_raw "w1".

(** The id the form path of [POST] gives a new item. *)
Definition post_id (rt : runtime) (t : string) : string :=
  t ++ "-" ++ rt_now_ms rt ++ "-" ++ rt_rand rt.

(** The pathname of the uploaded image of a form [POST] with file [fname]. *)
Definition image_path (rt : runtime) (t fname : string) : string :=
  rt_path rt (post_json_folder t ++ "/" ++ post_id rt t ++ "." ++
              last (split_on "." fname) "").

(** [formData.get('isPublished') === 'true'] *)
Definition form_published (f : list (string * form_value)) : bool :=
  form_is (form_get f "isPublished") "true".

(** The status a listing reads back for a form [POST]: the form's status
    when it is a string among the three, else the one the flag gives. *)
Definition form_status (f : list (string * form_value)) : string :=
  let d := if form_published f then "published" else "development" in
  match form_get f "status" with
  | Some (FText s) => if existsb (String.eqb s) status_values then s else d
  | _ => d
  end.

(** The name of the [File] a form attaches as [file], if any. *)
Definition form_file (f : list (string * form_value)) : option string :=
  match form_get f "file" with
  | Some (FFile n) => Some n
  | _ => None
  end.

(** A sample runtime: the store keeps the pathnames it is given (no random
    suffix) and serves blobs under [https://store.example/]. *)
Definition sample_rt : runtime :=
  mkRuntime "https://store.example/" (fun p => p) "2024-05-01T00:00:00.000Z"
            "1714521600000" "k3j9x0" (fun s => s) (fun _ => "7").

Definition sample_blob (p : string) (d : list (string * json)) : stored :=
  mkStored p ("https://store.example/" ++ p) (Some (JObj d)).

(** A sample store: one [gallery] record in review, one [featured] record
    published by status and one published only by its legacy flag. *)
Definition sample_store : list stored :=
  [sample_blob "gallery-gallery/g1.json"
     [("id", JStr "g1"); ("title", JStr "Memo"); ("status", JStr "in-review")];
   sample_blob "gallery-featured/f1.json"
     [("id", JStr "f1"); ("title", JStr "Clock"); ("status", JStr "published")];
   sample_blob "gallery-featured/f2.json"
     [("id", JStr "f2"); ("title", JStr "Notes"); ("isPublished", JBool true)]].

(** What the listing of [t] reads from the sample store. *)
Definition sample_store_items (t : string) : list GalleryItem :=
  match collect_items (env_of_store sample_store sample_now) t with
  | Some l => l
  | None => []
  end.

(** Sample JSON bodies: a [POST] of a new [featured] item, a [POST] whose
    item has a numeric id, and a [PUT] of the stored item [f1]. *)
Definition sample_post_item : list (string * json) :=
  [("id", JStr "f3"); ("title", JStr "Timer"); ("status", JStr "published")].

Definition sample_post_body : list (string * json) := [("item", JObj sample_post_item)].

Definition sample_num_item : list (string * json) :=
  [("id", JNum (7 # 1)); ("title", JStr "Dice")].

Definition sample_num_body : list (string * json) := [("item", JObj sample_num_item)].

Definition sample_put_item : list (string * json) :=
  [("id", JStr "f1"); ("title", JStr "Clock 2"); ("status", JStr "published")].

Definition sample_put_body : list (string * json) := [("item", JObj sample_put_item)].

(** A sample upload form. *)
Definition sample_form : list (string * form_value) :=
  [("title", FText "Weather"); ("content", FText "A weather app"); ("author", FText "Kim");
   ("isPublished", FText "true"); ("status", FText "in-review");
   ("tags", FText "tools, weather"); ("file", FFile "shot.png")].

(** A form that attaches files both as [file] and as [tags]. *)
Definition sample_tags_file_form : list (string * form_value) :=
  [("title", FText "Weather"); ("content", FText "A weather app"); ("author", FText "Kim");
   ("tags", FFile "tags.txt"); ("file", FFile "shot.png")].

(** Three published [featured] records with valid upload dates, two of them
    on the same day. *)
Definition sample_dated_raw (i d : string) : list (string * json) :=
  [("id", JStr i); ("isPublished", JBool true); ("uploadDate", JStr d)].

Definition sample_dated : list GalleryItem :=
  [normalized "featured" sample_now (sample_dated_raw "jan" "2024-01-01T00:00:00.000Z") "jan";
   normalized "featured" sample_now (sample_dated_raw "jun" "2024-06-01T00:00:00.000Z") "jun";
   normalized "featured" sample_now (sample_dated_raw "jan2" "2024-01-01T00:00:00.000Z") "jan2"].

(* ------------------------------------------------------------------ *)
(** ** Facts about the normalizer *)

Lemma normalize_inv (t now : string) (raw : json) (x : GalleryItem) :
  normalize t now raw = Some x ->
  exists r i, raw = JObj r /\ getStr r "id" = Some i /\ i <> "" /\
              x = normalized t now r i.
Proof.
  destruct raw as [| | | | | r]; simpl; try discriminate.
  destruct (getStr r "id") as [i|] eqn:Hid; try discriminate.
  destruct (String.eqb_spec i "") as [_|Hne]; try discriminate.
  intros H; injection H as <-. eauto 6.
Qed.

Lemma is_true_field_spec (r : list (string * json)) (k : string) :
  is_true_field r k = true <-> lookup k r = Some (JBool true).
Proof.
  unfold is_true_field.
  destruct (lookup k r) as [[| [|] | | | |]|]; split; congruence.
Qed.

Lemma or_else_js_or (a b : option string) :
  or_else (js_or a b) "" =
  if truthy_str a then match a with Some s => s | None => "" end
  else match b with Some s => s | None => "" end.
Proof.
  unfold or_else, js_or, truthy_str.
  assert (Hb : forall b0 : option string,
            match (if truthy_str b0 then b0 else Some "") with
            | Some s => s | None => "" end =
            match b0 with Some s => s | None => "" end).
  { intros [s'|]; simpl; [|reflexivity].
    destruct (String.eqb_spec s' ""); subst; reflexivity. }
  destruct a as [s|]; simpl; [|apply Hb].
  destruct (String.eqb s "") eqn:E; simpl.
  - apply String.eqb_eq in E; subst. apply Hb.
  - rewrite E. reflexivity.
Qed.

Lemma alias_resolved_or_else (r : list (string * json)) (modern legacy : string) :
  alias_resolved r modern legacy
    (or_else (js_or (getStr r modern) (getStr r legacy)) "").
Proof.
  unfold alias_resolved, falsy. rewrite or_else_js_or. split.
  - intros s Hs Hne. rewrite Hs. simpl.
    destruct (String.eqb_spec s ""); [contradiction | reflexivity].
  - intros Hf. destruct (getStr r modern) as [s|]; simpl; [|reflexivity].
    rewrite (Hf s eq_refl). reflexivity.
Qed.

Lemma pickStatus_cases (r : list (string * json)) :
  (forall s0, lookup "status" r = Some (JStr s0) -> In s0 status_values ->
              pickStatus r = s0) /\
  ((forall s0, lookup "status" r = Some (JStr s0) -> ~ In s0 status_values) ->
   pickStatus r = if is_true_field r "isPublished" then "published" else "development").
Proof.
  unfold pickStatus, getStr, status_values.
  destruct (lookup "status" r) as [[| | | s | |]|];
    (split; [intros s0 Hs Hin | intros H]); try discriminate Hs; try reflexivity.
  - injection Hs as <-.
    destruct Hin as [<-|[<-|[<-|[]]]]; reflexivity.
  - specialize (H s eq_refl).
    destruct (String.eqb_spec s "published"); [subst; simpl in H; tauto|].
    destruct (String.eqb_spec s "in-review"); [subst; simpl in H; tauto|].
    destruct (String.eqb_spec s "development"); [subst; simpl in H; tauto|].
    reflexivity.
Qed.

Lemma pickStatus_in (r : list (string * json)) : In (pickStatus r) status_values.
Proof.
  unfold pickStatus, status_values; simpl.
  destruct (getStr r "status") as [s|].
  - destruct (String.eqb_spec s "published"); [subst; auto|].
    destruct (String.eqb_spec s "in-review"); [subst; auto|].
    destruct (String.eqb_spec s "development"); [subst; auto|].
    simpl. destruct (is_true_field r "isPublished"); auto.
  - destruct (is_true_field r "isPublished"); auto.
Qed.

Lemma getStr_lookup (r : list (string * json)) (k s : string) :
  getStr r k = Some s <-> lookup k r = Some (JStr s).
Proof.
  unfold getStr. destruct (lookup k r) as [[| | | s' | |]|]; split; congruence.
Qed.

Lemma truthy_str_falsy (o : option string) :
  truthy_str o = false <-> falsy o.
Proof.
  unfold truthy_str, falsy. destruct o as [s|]; split.
  - intros H s' Hs. injection Hs as <-.
    destruct (String.eqb_spec s ""); [assumption | discriminate].
  - intros H. rewrite (H s eq_refl). reflexivity.
  - intros _ s' Hs; discriminate.
  - reflexivity.
Qed.

Lemma js_or_truthy (a b : option string) (s : string) :
  a = Some s -> s <> "" -> js_or a b = Some s.
Proof.
  intros -> Hne. unfold js_or, truthy_str.
  destruct (String.eqb_spec s ""); [contradiction | reflexivity].
Qed.

Lemma js_or_falsy (a b : option string) : falsy a -> js_or a b = b.
Proof.
  intros H. apply truthy_str_falsy in H. unfold js_or. rewrite H. reflexivity.
Qed.

(* ------------------------------------------------------------------ *)
(** ** Claims about the normalizer *)

(** C1: for every raw object the normalizer accepts, [isPublished] is true
    exactly when the legacy flag [isPublished] is literally [true] or the
    resolved [status] is [published]; the two may disagree (status
    [in-review] with the flag set) and [isPublished] is still [true]. *)
Theorem normalize_published_latch :
  (forall (t now : string) (r : list (string * json)) (x : GalleryItem),
     normalize t now (JObj r) = Some x ->
     (isPublished x = true <->
      lookup "isPublished" r = Some (JBool true) \/ status x = Some "published")) /\
  (exists x, normalize "gallery" ""
               (JObj [("id", JStr "b7"); ("status", JStr "in-review");
                      ("isPublished", JBool true)]) = Some x /\
             status x = Some "in-review" /\ isPublished x = true).
Proof.
  split.
  - intros t now r x H.
    destruct (normalize_inv _ _ _ _ H) as (r' & i & Heq & _ & _ & ->).
    injection Heq as <-. simpl.
    rewrite orb_true_iff, is_true_field_spec, String.eqb_eq.
    split; (intros [H1|H1]; [left; exact H1 | right]); congruence.
  - eexists; split; [reflexivity | split; reflexivity].
Qed.

(** C3: for every raw object the normalizer accepts, [status] is one of
    published / in-review / development; a recognized string status field
    is kept; any other value is treated as absent and the status is
    [published] when the legacy flag is literally [true], else
    [development]. *)
Theorem normalize_status_closed (t now : string) (r : list (string * json))
  (x : GalleryItem) :
  normalize t now (JObj r) = Some x ->
  exists s, status x = Some s /\ In s status_values /\
    (forall s0, lookup "status" r = Some (JStr s0) -> In s0 status_values -> s = s0) /\
    ((forall s0, lookup "status" r = Some (JStr s0) -> ~ In s0 status_values) ->
     (lookup "isPublished" r = Some (JBool true) -> s = "published") /\
     (lookup "isPublished" r <> Some (JBool true) -> s = "development")).
Proof.
  intros H.
  destruct (normalize_inv _ _ _ _ H) as (r' & i & Heq & _ & _ & ->).
  injection Heq as <-. exists (pickStatus r). simpl.
  destruct (pickStatus_cases r) as [Hrec Hinf].
  split; [reflexivity | split; [apply pickStatus_in | split]].
  - exact Hrec.
  - intros Hn. rewrite (Hinf Hn). split.
    + intros Hp. apply is_true_field_spec in Hp. rewrite Hp. reflexivity.
    + intros Hp. destruct (is_true_field r "isPublished") eqn:E; [|reflexivity].
      apply is_true_field_spec in E. contradiction.
Qed.

(** C4: the normalizer produces no record for a non-object, for an object
    without a string [id], or for an object whose [id] is [""]; every record
    it produces carries the raw object's non-empty string [id]. *)
Theorem normalize_rejects (t now : string) :
  (forall raw, (forall r, raw <> JObj r) -> normalize t now raw = None) /\
  (forall r, (forall i, lookup "id" r <> Some (JStr i)) ->
             normalize t now (JObj r) = None) /\
  (forall r, lookup "id" r = Some (JStr "") -> normalize t now (JObj r) = None) /\
  (forall raw x, normalize t now raw = Some x ->
     id x <> "" /\ exists r, raw = JObj r /\ lookup "id" r = Some (JStr (id x))).
Proof.
  split; [|split; [|split]].
  - intros [| | | | | r] H; try reflexivity. exfalso. exact (H r eq_refl).
  - intros r H. simpl. destruct (getStr r "id") as [i|] eqn:E; [|reflexivity].
    apply getStr_lookup in E. exfalso. exact (H i E).
  - intros r H. simpl. apply getStr_lookup in H. rewrite H. reflexivity.
  - intros raw x H.
    destruct (normalize_inv _ _ _ _ H) as (r & i & -> & Hid & Hne & ->).
    simpl. split; [exact Hne|]. exists r. split; [reflexivity|].
    apply getStr_lookup. exact Hid.
Qed.

(** C6 (as amended): for [title]/[name], [author]/[developer] and
    [content]/[description], a modern field holding a non-empty string wins;
    when the modern field is absent, not a string or [""], the legacy alias
    string is taken, else [""]. *)
Theorem normalize_modern_alias_nonempty (t now : string) (r : list (string * json))
  (x : GalleryItem) :
  normalize t now (JObj r) = Some x ->
  alias_resolved r "title" "name" (title x) /\
  alias_resolved r "author" "developer" (author x) /\
  alias_resolved r "content" "description" (content x).
Proof.
  intros H.
  destruct (normalize_inv _ _ _ _ H) as (r' & i & Heq & _ & _ & ->).
  injection Heq as <-. simpl.
  split; [|split]; apply alias_resolved_or_else.
Qed.

(** C6: the claim as stated fails: a modern [title] set to [""] next to a
    legacy [name] ["Foo"] yields the title ["Foo"], not the modern value. *)
Lemma normalize_empty_title_cx :
  lookup "title" [("id", JStr "c6"); ("title", JStr ""); ("name", JStr "Foo")]
    = Some (JStr "") /\
  lookup "name" [("id", JStr "c6"); ("title", JStr ""); ("name", JStr "Foo")]
    = Some (JStr "Foo") /\
  exists x, normalize "gallery" "2024-01-01T00:00:00.000Z"
              (JObj [("id", JStr "c6"); ("title", JStr ""); ("name", JStr "Foo")])
            = Some x /\ title x = "Foo" /\ title x <> "".
Proof.
  split; [reflexivity | split; [reflexivity|]].
  eexists; split; [reflexivity | split; [reflexivity | discriminate]].
Qed.

(** C7 (as amended): [imageUrl] is the image field when it is a non-empty
    string, else the icon field when it is a non-empty string, else the
    first string of [screenshotUrls] (absent when there is none);
    [screenshotUrls] keeps the string elements of the raw array when there
    is at least one, else it is [[imageUrl]] when [imageUrl] is a non-empty
    string, and [[]] otherwise. *)
Theorem normalize_image_priority (t now : string) (r : list (string * json))
  (x : GalleryItem) :
  normalize t now (JObj r) = Some x ->
  (forall s, getStr r "imageUrl" = Some s -> s <> "" -> imageUrl x = Some s) /\
  (falsy (getStr r "imageUrl") ->
   forall s, getStr r "iconUrl" = Some s -> s <> "" -> imageUrl x = Some s) /\
  (falsy (getStr r "imageUrl") -> falsy (getStr r "iconUrl") ->
   imageUrl x = hd_error (getArrStr r "screenshotUrls")) /\
  (getArrStr r "screenshotUrls" <> [] ->
   screenshotUrls x = Some (getArrStr r "screenshotUrls")) /\
  (getArrStr r "screenshotUrls" = [] ->
   (forall s, imageUrl x = Some s -> s <> "" -> screenshotUrls x = Some [s]) /\
   (falsy (imageUrl x) -> screenshotUrls x = Some [])).
Proof.
  intros H.
  destruct (normalize_inv _ _ _ _ H) as (r' & i & Heq & _ & _ & ->).
  injection Heq as <-. simpl. unfold firstImage, screenshot_list, screenshots.
  split; [|split; [|split; [|split]]].
  - intros s Hs Hne. apply js_or_truthy; assumption.
  - intros Hf s Hs Hne. rewrite (js_or_falsy _ _ Hf). apply js_or_truthy; assumption.
  - intros Hf1 Hf2. rewrite (js_or_falsy _ _ Hf1), (js_or_falsy _ _ Hf2). reflexivity.
  - intros Hne. destruct (getArrStr r "screenshotUrls"); [contradiction | reflexivity].
  - intros Hnil. unfold firstImage.
    set (fi := js_or (getStr r "imageUrl")
                 (js_or (getStr r "iconUrl") (hd_error (getArrStr r "screenshotUrls")))).
    rewrite Hnil. split.
    + intros s Hs Hne. rewrite Hs.
      destruct (String.eqb_spec s ""); [contradiction | reflexivity].
    + intros Hf. destruct fi as [s|]; [|reflexivity].
      rewrite (Hf s eq_refl). reflexivity.
Qed.

(** C7: the claim as stated fails: a raw object with no image, icon or
    screenshot field gets no [imageUrl] and an empty [screenshotUrls], not a
    one-element list. *)
Lemma normalize_no_image_cx :
  exists x, normalize "gallery" "2024-01-01T00:00:00.000Z" (JObj [("id", JStr "c7")])
            = Some x /\ imageUrl x = None /\ screenshotUrls x = Some [].
Proof.
  eexists; split; [reflexivity | split; reflexivity].
Qed.

(** C8: the raw object [{id:"a1", name:"Foo", isPublished:true}] read under
    type [featured] normalizes to title ["Foo"], [isPublished] true, status
    [published], type [featured] (and [appCategory] [featured]). *)
Theorem normalize_scenario_a1 (now : string) :
  exists x, normalize "featured" now
              (JObj [("id", JStr "a1"); ("name", JStr "Foo");
                     ("isPublished", JBool true)]) = Some x /\
            id x = "a1" /\ title x = "Foo" /\ isPublished x = true /\
            status x = Some "published" /\ type x = "featured" /\
            appCategory x = Some "featured".
Proof.
  eexists; split; [reflexivity|].
  repeat split; reflexivity.
Qed.

(* ------------------------------------------------------------------ *)
(** ** Facts about the sort *)

Section SortFacts.

Variable dv : string -> option Z.

Lemma insert_item_perm (a : GalleryItem) (l : list GalleryItem) :
  Permutation (a :: l) (insert_item dv a l).
Proof.
  induction l as [|y ys IH]; simpl; [reflexivity|].
  destruct (0 <? compare_items dv a y); [|reflexivity].
  rewrite perm_swap. constructor. exact IH.
Qed.

Lemma sort_items_perm (l : list GalleryItem) : Permutation l (sort_items dv l).
Proof.
  induction l as [|a l IH]; simpl; [reflexivity|].
  rewrite <- insert_item_perm. constructor. exact IH.
Qed.

(** [insert_item] puts [a] right after the prefix it compares greater than. *)
Lemma insert_item_split (a : GalleryItem) (l : list GalleryItem) :
  exists l1 l2, l = (l1 ++ l2)%list /\ insert_item dv a l = (l1 ++ a :: l2)%list /\
                Forall (fun y => 0 < compare_items dv a y) l1.
Proof.
  induction l as [|y ys IH]; simpl.
  - exists [], []. auto.
  - destruct (0 <? compare_items dv a y) eqn:E.
    + destruct IH as (l1 & l2 & -> & -> & Hf).
      exists (y :: l1), l2. split; [reflexivity | split; [reflexivity |]].
      constructor; [apply Z.ltb_lt; exact E | exact Hf].
    + exists [], (y :: ys). auto.
Qed.

Lemma compare_pos_valid (a y : GalleryItem) :
  0 < compare_items dv a y ->
  exists ka ky, date_key dv a = Some ka /\ date_key dv y = Some ky /\ ka < ky.
Proof.
  unfold compare_items.
  destruct (date_key dv a) as [ka|], (date_key dv y) as [ky|]; try lia.
  intros H. exists ka, ky. repeat split; lia.
Qed.

(** Stability of one insertion, for a class of a valid key. *)
Lemma insert_item_filter_class (x a : GalleryItem) (kx : Z) (s : list GalleryItem) :
  date_key dv x = Some kx -> date_key dv a <> None ->
  filter (fun y => compare_items dv x y =? 0) (insert_item dv a s) =
  filter (fun y => compare_items dv x y =? 0) (a :: s).
Proof.
  intros Hx Ha.
  destruct (insert_item_split a s) as (l1 & l2 & -> & -> & Hf).
  simpl. rewrite !filter_app. simpl.
  destruct (compare_items dv x a =? 0) eqn:Exa.
  - assert (H1 : filter (fun y => compare_items dv x y =? 0) l1 = []).
    { apply Z.eqb_eq in Exa. unfold compare_items in Exa. rewrite Hx in Exa.
      destruct (date_key dv a) as [ka|] eqn:Eka; [|contradiction].
      clear - Hf Hx Eka Exa. induction Hf as [|y l1' Hy _ IH]; [reflexivity|].
      simpl. rewrite IH.
      destruct (compare_pos_valid _ _ Hy) as (ka' & ky & Ha' & Hy' & Hlt).
      rewrite Eka in Ha'. injection Ha' as <-.
      unfold compare_items at 1. rewrite Hx, Hy'.
      destruct (Z.eqb_spec (ky - kx) 0); [lia | reflexivity]. }
    rewrite H1. reflexivity.
  - reflexivity.
Qed.

Lemma sort_items_filter_class (x : GalleryItem) (kx : Z) (l : list GalleryItem) :
  date_key dv x = Some kx -> (forall a, In a l -> date_key dv a <> None) ->
  filter (fun y => compare_items dv x y =? 0) (sort_items dv l) =
  filter (fun y => compare_items dv x y =? 0) l.
Proof.
  intros Hx. induction l as [|a l IH]; intros Hall; simpl; [reflexivity|].
  rewrite (insert_item_filter_class x a kx _ Hx (Hall a (or_introl eq_refl))).
  simpl. rewrite IH; [reflexivity|]. intros b Hb. apply Hall. right. exact Hb.
Qed.

Lemma insert_item_sorted (a : GalleryItem) (l : list GalleryItem) :
  date_key dv a <> None -> (forall y, In y l -> date_key dv y <> None) ->
  Sorted (key_ge dv) l -> Sorted (key_ge dv) (insert_item dv a l).
Proof.
  intros Ha. induction l as [|y ys IH]; intros Hall Hs; simpl.
  - repeat constructor.
  - apply Sorted_inv in Hs as [Hs Hhd].
    destruct (0 <? compare_items dv a y) eqn:E.
    + apply Z.ltb_lt in E.
      destruct (compare_pos_valid _ _ E) as (ka & ky & Eka & Eky & Hlt).
      constructor.
      * apply IH; [intros z Hz; apply Hall; right; exact Hz | exact Hs].
      * destruct ys as [|z zs]; simpl.
        -- constructor. unfold key_ge. rewrite Eky, Eka. lia.
        -- destruct (0 <? compare_items dv a z); constructor.
           ++ apply HdRel_inv in Hhd. exact Hhd.
           ++ unfold key_ge. rewrite Eky, Eka. lia.
    + apply Z.ltb_ge in E.
      constructor; [constructor; assumption|]. constructor.
      unfold key_ge. unfold compare_items in E.
      destruct (date_key dv a) as [ka|]; [|contradiction].
      destruct (date_key dv y) as [ky|] eqn:Ey; [lia|].
      exfalso. exact (Hall y (or_introl eq_refl) Ey).
Qed.

Lemma sort_items_sorted (l : list GalleryItem) :
  (forall y, In y l -> date_key dv y <> None) -> Sorted (key_ge dv) (sort_items dv l).
Proof.
  induction l as [|a l IH]; intros Hall; simpl; [constructor|].
  apply insert_item_sorted.
  - apply Hall. left. reflexivity.
  - intros y Hy. apply Hall. right.
    apply (Permutation_in _ (Permutation_sym (sort_items_perm l))). exact Hy.
  - apply IH. intros y Hy. apply Hall. right. exact Hy.
Qed.

Lemma key_ge_sorted_desc (l : list GalleryItem) :
  Sorted (key_ge dv) l -> sorted_desc dv l.
Proof.
  unfold sorted_desc. induction 1 as [|a l Hs IH Hhd]; simpl; [constructor|].
  destruct Hhd as [|b l' Hab].
  - unfold key_ge in *. destruct (date_key dv a); repeat constructor.
  - unfold key_ge in Hab.
    destruct (date_key dv a) as [ka|] eqn:Ea; [|contradiction].
    destruct (date_key dv b) as [kb|] eqn:Eb; [|contradiction].
    simpl. constructor; [exact IH|].
    simpl in IH. rewrite Eb in IH |- *. simpl. constructor. lia.
Qed.

(** With a date-less key in the input, stability forces the input order. *)
Lemma stable_nan_forces_order (inp out : list GalleryItem) (x : GalleryItem) :
  In x inp -> date_key dv x = None -> stable dv inp out -> out = inp.
Proof.
  intros Hin Hx Hst. specialize (Hst x Hin).
  assert (Hall : forall l, filter (fun y => compare_items dv x y =? 0) l = l).
  { induction l as [|y l IH]; simpl; [reflexivity|].
    unfold compare_items at 1. rewrite Hx. simpl. rewrite IH. reflexivity. }
  rewrite !Hall in Hst. exact Hst.
Qed.

End SortFacts.

(* ------------------------------------------------------------------ *)
(** ** Facts about [GET] *)

Lemma option_to_list_in {A} (o : option A) (x : A) :
  In x (option_to_list o) -> o = Some x.
Proof. destruct o; simpl; intros [->|[]] || intros []; reflexivity. Qed.

Lemma items_of_data_normalized (t now : string) (data : json) (x : GalleryItem) :
  In x (items_of_data t now data) -> exists raw, normalize t now raw = Some x.
Proof.
  unfold items_of_data. destruct data as [| | | | xs |]; intros H;
    try (destruct (_ && _); [apply option_to_list_in in H; eauto | destruct H]).
  apply in_flat_map in H as (raw & _ & H). apply option_to_list_in in H. eauto.
Qed.

Lemma collect_items_normalized (e : env) (t : string) (items : list GalleryItem)
  (x : GalleryItem) :
  collect_items e t = Some items -> In x items ->
  exists raw, normalize t (now_iso e) raw = Some x.
Proof.
  unfold collect_items. destruct (json_files (list_blobs e) t) as [fs|]; [|discriminate].
  intros H; injection H as <-. intros H.
  apply in_flat_map in H as (b & _ & H). unfold items_of_file in H.
  destruct (fetch_url e (url b)) as [|[|] [data|]]; try destruct H.
  eapply items_of_data_normalized; eassumption.
Qed.

Lemma normalize_status_published (t now : string) (raw : json) (x : GalleryItem) :
  normalize t now raw = Some x -> status x = Some "published" -> isPublished x = true.
Proof.
  intros H Hs. destruct (normalize_inv _ _ _ _ H) as (r & i & _ & _ & _ & ->).
  simpl in *. injection Hs as ->. apply orb_true_r.
Qed.

Lemma GET_ok (e : env) (dv : string -> option Z) (t : string) (items : list GalleryItem) :
  t <> "" -> collect_items e t = Some items ->
  GET e dv (Some t) = mkResponse 200 (ItemsBody (listing dv t items)).
Proof.
  intros Ht Hc. simpl. destruct (String.eqb_spec t ""); [contradiction|].
  rewrite Hc. reflexivity.
Qed.

Lemma listing_in (dv : string -> option Z) (t : string) (items : list GalleryItem)
  (x : GalleryItem) :
  In x (listing dv t items) <-> In x (filter_items t items).
Proof.
  unfold listing. split; apply Permutation_in;
    [apply Permutation_sym|]; apply sort_items_perm.
Qed.

(* ------------------------------------------------------------------ *)
(** ** Claims about the listing *)

(** C2: the listing keeps exactly the records the filter admits: for type
    [gallery] or [normal] the records with [isPublished] or status
    [in-review]; for [featured] or [events] the records with [isPublished]. *)
Theorem listing_filter_membership (e : env) (dv : string -> option Z) (t : string)
  (items : list GalleryItem) :
  collect_items e t = Some items ->
  ((t = "gallery" \/ t = "normal") ->
   GET e dv (Some t) = mkResponse 200 (ItemsBody (listing dv t items)) /\
   forall x, In x (listing dv t items) <->
             In x items /\ (isPublished x = true \/ status x = Some "in-review")) /\
  ((t = "featured" \/ t = "events") ->
   GET e dv (Some t) = mkResponse 200 (ItemsBody (listing dv t items)) /\
   forall x, In x (listing dv t items) <-> In x items /\ isPublished x = true).
Proof.
  intros Hc. split.
  - intros Ht. split; [apply GET_ok; [destruct Ht as [->| ->]; discriminate | exact Hc]|].
    intros x. rewrite listing_in. unfold filter_items.
    assert (Hg : (String.eqb t "gallery" || String.eqb t "normal")%bool = true)
      by (destruct Ht as [->| ->]; reflexivity).
    rewrite Hg, filter_In, !orb_true_iff. unfold status_is.
    split; intros [Hin Hp]; split; try exact Hin.
    + destruct Hp as [[Hp|Hp]|Hp]; [left; exact Hp| |].
      * right. destruct (status x) as [s|]; [|discriminate].
        apply String.eqb_eq in Hp. subst. reflexivity.
      * left. destruct (collect_items_normalized _ _ _ _ Hc Hin) as (raw & Hraw).
        apply (normalize_status_published _ _ _ _ Hraw).
        destruct (status x) as [s|]; [|discriminate].
        apply String.eqb_eq in Hp. subst. reflexivity.
    + destruct Hp as [Hp|Hp]; [left; left; exact Hp|].
      left; right. rewrite Hp. reflexivity.
  - intros Ht. split; [apply GET_ok; [destruct Ht as [->| ->]; discriminate | exact Hc]|].
    intros x. rewrite listing_in. unfold filter_items.
    assert (Hg : (String.eqb t "gallery" || String.eqb t "normal")%bool = false)
      by (destruct Ht as [->| ->]; reflexivity).
    rewrite Hg, filter_In. reflexivity.
Qed.

(** C5 (where the code meets it): when every record that passes the
    filter has a date that parses to a valid time, the returned sequence is
    a permutation of the filtered records, ordered most recent first, and
    records with equal times keep their encounter order. *)
Theorem listing_sorted_stable (dv : string -> option Z) (t : string)
  (items : list GalleryItem) :
  (forall x, In x (filter_items t items) -> date_key dv x <> None) ->
  Permutation (filter_items t items) (listing dv t items) /\
  sorted_desc dv (listing dv t items) /\
  stable dv (filter_items t items) (listing dv t items).
Proof.
  intros Hall. unfold listing. split; [|split].
  - apply sort_items_perm.
  - apply key_ge_sorted_desc, sort_items_sorted. exact Hall.
  - intros x Hx. destruct (date_key dv x) as [kx|] eqn:Ex.
    + apply (sort_items_filter_class dv x kx); assumption.
    + exfalso. exact (Hall x Hx Ex).
Qed.

(** C5: the code does not meet the claim when a date does not parse. In a
    [featured] blob holding records dated January 2024, ["next week"] and
    June 2024, in that order, the comparator returns [NaN] (read as 0)
    between the middle record and every other one. A stable sort must then
    keep the input order, and [GET] returns the January record before the
    June one: the returned sequence is not most recent first. *)
Lemma listing_nan_date_cx :
  exists items, collect_items sample_env "featured" = Some items /\
    GET sample_env iso_time_value (Some "featured")
      = mkResponse 200 (ItemsBody (listing iso_time_value "featured" items)) /\
    map id (listing iso_time_value "featured" items) = ["jan"; "odd"; "jun"] /\
    (forall out, stable iso_time_value (filter_items "featured" items) out ->
                 out = filter_items "featured" items) /\
    ~ sorted_desc iso_time_value (listing iso_time_value "featured" items) /\
    ~ exists out, sorted_desc iso_time_value out /\
                  stable iso_time_value (filter_items "featured" items) out.
Proof.
  assert (Hc : exists items, collect_items sample_env "featured" = Some items)
    by (eexists; reflexivity).
  destruct Hc as [items Hc]. exists items.
  split; [exact Hc|]. split; [apply GET_ok; [discriminate | exact Hc]|].
  vm_compute in Hc. injection Hc as Hitems.
  assert (Hform : exists a b c,
            filter_items "featured" items = [a; b; c] /\
            date_key iso_time_value a = Some 1704067200000 /\
            date_key iso_time_value b = None /\
            date_key iso_time_value c = Some 1717200000000 /\
            listing iso_time_value "featured" items = [a; b; c] /\
            map id [a; b; c] = ["jan"; "odd"; "jun"]).
  { rewrite <- Hitems. do 3 eexists. split; [reflexivity|].
    repeat split; vm_compute; reflexivity. }
  destruct Hform as (a & b & c & Hinp & Ha & Hb & Hc' & Hl & Hids).
  assert (Hforce : forall out, stable iso_time_value (filter_items "featured" items) out ->
                               out = filter_items "featured" items).
  { intros out Hst. rewrite Hinp in *.
    apply (stable_nan_forces_order iso_time_value _ out b) in Hst;
      [exact Hst | simpl; auto | exact Hb]. }
  assert (Hns : ~ sorted_desc iso_time_value [a; b; c]).
  { intros Hs. unfold sorted_desc, valid_keys in Hs. simpl in Hs.
    rewrite Ha, Hb, Hc' in Hs. simpl in Hs.
    apply Sorted_inv in Hs as [_ Hhd]. apply HdRel_inv in Hhd. lia. }
  split; [rewrite Hl; exact Hids|]. split; [exact Hforce|].
  split; [rewrite Hl; exact Hns|].
  intros (out & Hs & Hst). apply Hforce in Hst. subst out. rewrite Hinp in Hs. exact (Hns Hs).
Qed.

Lemma list_folders_none (lb : string -> option (list blob)) (fs : list string)
  (f : string) :
  In f fs -> lb (f ++ "/") = None -> list_folders lb fs = None.
Proof.
  induction fs as [|g fs IH]; simpl; [tauto|].
  intros [->|Hin] Hn; [rewrite Hn; reflexivity|].
  destruct (lb (g ++ "/")); [|reflexivity]. rewrite IH; auto.
Qed.

Lemma list_folders_some (lb : string -> option (list blob)) (fs : list string) :
  (forall f, In f fs -> lb (f ++ "/") <> None) ->
  exists bs, list_folders lb fs = Some bs.
Proof.
  induction fs as [|g fs IH]; simpl; intros Hall; [eauto|].
  destruct (lb (g ++ "/")) as [bs|] eqn:E; [|exfalso; exact (Hall g (or_introl eq_refl) E)].
  destruct IH as [rest ->]; [intros f Hf; apply Hall; right; exact Hf|]. eauto.
Qed.

Lemma list_folders_drop (lb : string -> option (list blob)) (g : blob -> bool)
  (fs : list string) :
  list_folders (fun p => match lb p with
                         | Some bs => Some (filter g bs)
                         | None => None
                         end) fs =
  match list_folders lb fs with
  | Some bs => Some (filter g bs)
  | None => None
  end.
Proof.
  induction fs as [|f fs IH]; simpl; [reflexivity|].
  destruct (lb (f ++ "/")) as [bs|]; [|reflexivity].
  rewrite IH. destruct (list_folders lb fs) as [rest|]; [|reflexivity].
  rewrite filter_app. reflexivity.
Qed.

Lemma flat_map_skip_url (e : env) (t u : string) (bs : list blob) :
  fetch_fails (fetch_url e u) ->
  flat_map (items_of_file e t)
    (filter (fun b => ends_with ".json" (pathname b))
       (filter (fun b => negb (String.eqb (url b) u)) bs)) =
  flat_map (items_of_file e t) (filter (fun b => ends_with ".json" (pathname b)) bs).
Proof.
  intros Hf. induction bs as [|b bs IH]; simpl; [reflexivity|].
  destruct (String.eqb_spec (url b) u) as [Hu|Hu]; simpl.
  - destruct (ends_with ".json" (pathname b)); simpl; rewrite IH; [|reflexivity].
    unfold items_of_file at 2. rewrite Hu.
    destruct (fetch_url e u) as [|[|] [data|]]; solve [contradiction | reflexivity].
  - destruct (ends_with ".json" (pathname b)); simpl; rewrite IH; reflexivity.
Qed.

Lemma collect_items_drop_url (e : env) (t u : string) :
  fetch_fails (fetch_url e u) -> collect_items (drop_url u e) t = collect_items e t.
Proof.
  intros Hf. unfold collect_items, json_files. simpl.
  rewrite list_folders_drop.
  destruct (list_folders (list_blobs e) (folder_paths t)) as [bs|]; [|reflexivity].
  f_equal. unfold items_of_file. simpl. fold (items_of_file e t).
  apply flat_map_skip_url. exact Hf.
Qed.

(** C9: [GET] answers 400 when the [type] parameter is missing (or empty),
    and otherwise always answers, with 200 or 500: 500 as soon as one of the
    partition [list] calls fails, 200 with the listing when they all succeed;
    a blob whose fetch throws, is not ok or does not parse is skipped: the
    response is the one the store without that blob gives. *)
Theorem GET_error_signals (e : env) (dv : string -> option Z) :
  GET e dv None = mkResponse 400 (ErrorBody "Type parameter is required") /\
  GET e dv (Some "") = mkResponse 400 (ErrorBody "Type parameter is required") /\
  (forall t, t <> "" -> status_in (GET e dv (Some t)) [200; 500]) /\
  (forall t f, t <> "" -> In f (folder_paths t) -> list_blobs e (f ++ "/") = None ->
     GET e dv (Some t) = mkResponse 500 (ErrorBody "갤러리 조회 실패")) /\
  (forall t, t <> "" ->
     (forall f, In f (folder_paths t) -> list_blobs e (f ++ "/") <> None) ->
     exists items, collect_items e t = Some items /\
       GET e dv (Some t) = mkResponse 200 (ItemsBody (listing dv t items))) /\
  (forall qt u, fetch_fails (fetch_url e u) -> GET (drop_url u e) dv qt = GET e dv qt).
Proof.
  split; [reflexivity|]. split; [reflexivity|]. split; [|split; [|split]].
  - intros t Ht. unfold status_in. simpl.
    destruct (String.eqb_spec t ""); [contradiction|].
    destruct (collect_items e t); simpl; auto.
  - intros t f Ht Hin Hn. simpl. destruct (String.eqb_spec t ""); [contradiction|].
    unfold collect_items, json_files. rewrite (list_folders_none _ _ f Hin Hn).
    reflexivity.
  - intros t Ht Hall.
    destruct (list_folders_some _ _ Hall) as [bs Hbs].
    exists (flat_map (items_of_file e t)
              (filter (fun b => ends_with ".json" (pathname b)) bs)).
    assert (Hc : collect_items e t =
                 Some (flat_map (items_of_file e t)
                         (filter (fun b => ends_with ".json" (pathname b)) bs)))
      by (unfold collect_items, json_files; rewrite Hbs; reflexivity).
    split; [exact Hc | apply GET_ok; assumption].
  - intros qt u Hf. destruct qt as [t|]; [|reflexivity]. simpl.
    destruct (String.eqb t ""); [reflexivity|].
    rewrite (collect_items_drop_url e t u Hf). reflexivity.
Qed.

(* ------------------------------------------------------------------ *)
(** ** Where written blobs land *)

Lemma prefix_append (s t : string) : String.prefix s (s ++ t) = true.
Proof.
  induction s as [|a s IH]; simpl; [destruct t; reflexivity|].
  destruct (ascii_dec a a) as [_|n]; [exact IH | contradiction].
Qed.

Lemma ends_with_append (suf s : string) : ends_with suf (s ++ suf) = true.
Proof.
  induction s as [|a s IH]; simpl.
  - destruct suf as [|c s']; [reflexivity|].
    cbn -[String.eqb]. rewrite String.eqb_refl. reflexivity.
  - rewrite IH. apply orb_true_r.
Qed.

Lemma append_assoc_str (a b c : string) : (a ++ b) ++ c = a ++ (b ++ c).
Proof. induction a as [|x a IH]; simpl; [reflexivity | rewrite IH; reflexivity]. Qed.

Lemma json_blob_listed (st : list blob) (folder rt i sfx u : string) :
  In folder (folder_paths rt) ->
  exists fs, json_files (store_list (put_blob st (mkBlob (json_blob_path folder i sfx) u))) rt
             = Some fs /\ In (mkBlob (json_blob_path folder i sfx) u) fs.
Proof.
  intros Hin. set (b := mkBlob (json_blob_path folder i sfx) u).
  assert (Hpre : forall f, In f (folder_paths rt) ->
                 store_list (put_blob st b) (f ++ "/") <> None)
    by (intros; discriminate).
  destruct (list_folders_some _ _ Hpre) as [bs Hbs].
  unfold json_files. rewrite Hbs. eexists. split; [reflexivity|].
  apply filter_In. split.
  2:{ simpl. unfold json_blob_path.
      rewrite <- !append_assoc_str. apply ends_with_append. }
  clear Hpre. revert bs Hbs. induction (folder_paths rt) as [|f fs IH]; simpl.
  - destruct Hin.
  - intros bs Hbs.
    destruct (list_folders (store_list (put_blob st b)) fs) as [rest|] eqn:E;
      [|discriminate].
    injection Hbs as <-. apply in_or_app. destruct Hin as [->|Hin].
    + left.
      assert (Hp : String.prefix (folder ++ "/") (json_blob_path folder i sfx) = true)
        by (unfold json_blob_path; rewrite <- (append_assoc_str folder "/"); apply prefix_append).
      rewrite Hp. left. reflexivity.
    + right. apply (IH Hin rest). reflexivity.
Qed.

(** C10: [POST] writes the JSON blob of a [gallery] or [normal] item under
    [gallery-gallery]; [PUT] writes [gallery] under [gallery-gallery] but
    [normal] under [gallery-normal]; either way the blob is among the JSON
    files the listing of [gallery] and of [normal] reads. *)
Theorem written_blob_listable :
  post_json_folder "gallery" = "gallery-gallery" /\
  post_json_folder "normal" = "gallery-gallery" /\
  put_json_folder "gallery" = "gallery-gallery" /\
  put_json_folder "normal" = "gallery-normal" /\
  (forall (w rt : string) (st : list blob) (i sfx u folder : string),
     In w ["gallery"; "normal"] -> In rt ["gallery"; "normal"] ->
     folder = post_json_folder w \/ folder = put_json_folder w ->
     exists fs,
       json_files (store_list (put_blob st (mkBlob (json_blob_path folder i sfx) u))) rt
         = Some fs /\
       In (mkBlob (json_blob_path folder i sfx) u) fs).
Proof.
  do 4 (split; [reflexivity|]).
  intros w rt st i sfx u folder Hw Hrt Hf. apply json_blob_listed.
  assert (Hread : folder_paths rt = ["gallery-gallery"; "gallery-normal"])
    by (destruct Hrt as [<-|[<-|[]]]; reflexivity).
  rewrite Hread.
  destruct Hw as [<-|[<-|[]]]; destruct Hf as [->| ->]; simpl; auto.
Qed.

(* ------------------------------------------------------------------ *)
(** ** Facts about the blob store *)

Lemma list_folders_store (st : list stored) (fs : list string) :
  list_folders (fun p => Some (store_blobs st p)) fs =
  Some (flat_map (fun f => store_blobs st (f ++ "/")) fs).
Proof. induction fs as [|f fs IH]; simpl; [reflexivity|]. rewrite IH. reflexivity. Qed.

Lemma collect_items_store (st : list stored) (now t : string) :
  collect_items (env_of_store st now) t =
  Some (flat_map (items_of_file (env_of_store st now) t)
          (filter (fun b => ends_with ".json" (pathname b)) (all_blobs st t))).
Proof.
  unfold collect_items, json_files, all_blobs. cbn [list_blobs env_of_store].
  rewrite list_folders_store. reflexivity.
Qed.

Lemma items_of_data_obj (t now : string) (d : json) (x : GalleryItem) :
  normalize t now d = Some x -> items_of_data t now d = [x].
Proof.
  intros H. destruct (normalize_inv _ _ _ _ H) as (r & i & -> & Hid & Hne & _).
  unfold items_of_data. rewrite H. cbn [json_truthy prop_id andb].
  apply getStr_lookup in Hid. rewrite Hid. simpl.
  destruct (String.eqb_spec i ""); [contradiction | reflexivity].
Qed.

Lemma store_fetch_put (base : string) (st : list stored) (p : string) (d : option json) :
  store_fetch (store_put base st p d) (base ++ p) = FetchResponse true d.
Proof. unfold store_fetch, store_put. cbn [find s_url]. rewrite String.eqb_refl. reflexivity. Qed.

Lemma all_blobs_in (st : list stored) (t f : string) (s : stored) :
  In f (folder_paths t) -> In s st -> String.prefix (f ++ "/") (s_path s) = true ->
  In (to_blob s) (all_blobs st t).
Proof.
  intros Hf Hs Hp. unfold all_blobs. apply in_flat_map. exists f. split; [exact Hf|].
  unfold store_blobs. apply in_map. apply filter_In. auto.
Qed.

Lemma collect_items_store_in (st : list stored) (now t f : string) (s : stored)
  (d : json) (x : GalleryItem) :
  In f (folder_paths t) -> In s st ->
  String.prefix (f ++ "/") (s_path s) = true -> ends_with ".json" (s_path s) = true ->
  store_fetch st (s_url s) = FetchResponse true (Some d) ->
  normalize t now d = Some x ->
  exists items, collect_items (env_of_store st now) t = Some items /\ In x items.
Proof.
  intros Hf Hs Hp Hj Hfe Hn. rewrite collect_items_store. eexists. split; [reflexivity|].
  apply in_flat_map. exists (to_blob s). split.
  - apply filter_In. split; [apply (all_blobs_in st t f s); assumption | exact Hj].
  - unfold items_of_file. cbn [fetch_url env_of_store url to_blob now_iso].
    rewrite Hfe, (items_of_data_obj _ _ _ _ Hn). left; reflexivity.
Qed.

Lemma folder_paths_nil (t : string) : ~ In t gallery_types -> folder_paths t = [].
Proof.
  intros H. unfold folder_paths, gallery_types in *.
  destruct (String.eqb_spec t "gallery"); [subst; simpl in H; tauto|].
  destruct (String.eqb_spec t "normal"); [subst; simpl in H; tauto|].
  destruct (String.eqb_spec t "featured"); [subst; simpl in H; tauto|].
  destruct (String.eqb_spec t "events"); [subst; simpl in H; tauto|].
  reflexivity.
Qed.

Lemma filter_all {A} (f : A -> bool) (l : list A) :
  (forall x, In x l -> f x = true) -> filter f l = l.
Proof.
  induction l as [|a l IH]; simpl; intros H; [reflexivity|].
  rewrite H by auto. rewrite IH by auto. reflexivity.
Qed.

Lemma filter_items_in (t : string) (items : list GalleryItem) (x : GalleryItem) :
  In x (filter_items t items) -> In x items.
Proof. unfold filter_items. destruct (_ || _); intros H; apply filter_In in H; tauto. Qed.

Lemma collect_status_in (e : env) (t : string) (items : list GalleryItem) (x : GalleryItem) :
  collect_items e t = Some items -> In x items ->
  exists s, status x = Some s /\ In s status_values.
Proof.
  intros Hc Hx. destruct (collect_items_normalized e t items x Hc Hx) as (raw & Hn).
  destruct (normalize_inv _ _ _ _ Hn) as (r & i & _ & _ & _ & ->).
  exists (pickStatus r). split; [reflexivity | apply pickStatus_in].
Qed.

Lemma status_is_spec (x : GalleryItem) (s : string) :
  status_is x s = true <-> status x = Some s.
Proof.
  unfold status_is. destruct (status x) as [s'|]; [|split; discriminate].
  destruct (String.eqb_spec s' s); split; congruence.
Qed.

(* ------------------------------------------------------------------ *)
(** ** [GET] on other types, and its caller [loadItems] *)

(** X1: a [type] that names none of the four folders lists nothing: [GET]
    answers 200 with an empty array, without any [list] call. *)
Theorem GET_unknown_type_empty (e : env) (dv : string -> option Z) (t : string) :
  t <> "" -> ~ In t gallery_types -> GET e dv (Some t) = mkResponse 200 (ItemsBody []).
Proof.
  intros Ht Hn.
  assert (Hc : collect_items e t = Some [])
    by (unfold collect_items, json_files; rewrite (folder_paths_nil t Hn); reflexivity).
  rewrite (GET_ok e dv t [] Ht Hc). unfold listing, filter_items.
  destruct (_ || _); reflexivity.
Qed.

(** X2: the [gallery] and [normal] views both query [type=gallery], and
    their client filter (status [published], [in-review] or [development])
    keeps every record of the response: they show exactly what [GET]
    returns for [gallery]. *)
Theorem load_items_gallery_view (e : env) (dv : string -> option Z) (v : string)
  (items : list GalleryItem) :
  v = "gallery" \/ v = "normal" ->
  collect_items e "gallery" = Some items ->
  load_items v (GET e dv (Some (query_type v))) = Some (listing dv "gallery" items).
Proof.
  intros Hv Hc.
  assert (Hq : query_type v = "gallery") by (destruct Hv as [-> | ->]; reflexivity).
  rewrite Hq, (GET_ok e dv "gallery" items ltac:(discriminate) Hc).
  unfold load_items. cbn [resp_status resp_body]. rewrite Hq, String.eqb_refl.
  replace ((200 <=? 200) && (200 <? 300)) with true by reflexivity.
  f_equal. apply filter_all. intros x Hx.
  apply listing_in, filter_items_in in Hx.
  destruct (collect_status_in e _ items x Hc Hx) as (s & Hs & Hin).
  unfold status_is. rewrite Hs. destruct Hin as [<-|[<-|[<-|[]]]]; reflexivity.
Qed.

(** X3: the [featured] and [events] views show exactly the records of the
    partition whose status is [published]; a record [GET] returns because
    only its legacy flag [isPublished] is set is not shown. *)
Theorem load_items_published_view (e : env) (dv : string -> option Z) (v : string)
  (items : list GalleryItem) :
  v = "featured" \/ v = "events" ->
  collect_items e v = Some items ->
  exists shown, load_items v (GET e dv (Some (query_type v))) = Some shown /\
    forall x, In x shown <-> In x items /\ status x = Some "published".
Proof.
  intros Hv Hc.
  assert (Hne : v <> "") by (destruct Hv as [-> | ->]; discriminate).
  assert (Hq : query_type v = v) by (destruct Hv as [-> | ->]; reflexivity).
  assert (Hf : filter_items v items = filter (fun it => isPublished it) items)
    by (destruct Hv as [-> | ->]; reflexivity).
  rewrite Hq, (GET_ok e dv v items Hne Hc).
  assert (Hg : String.eqb (query_type v) "gallery" = false)
    by (destruct Hv as [-> | ->]; reflexivity).
  unfold load_items. cbn [resp_status resp_body]. rewrite Hg.
  replace ((200 <=? 200) && (200 <? 300)) with true by reflexivity.
  eexists. split; [reflexivity|]. intros x.
  rewrite filter_In, listing_in, status_is_spec, Hf, filter_In.
  split; [tauto|]. intros [Hx Hs]. split; [|exact Hs]. split; [exact Hx|].
  destruct (collect_items_normalized _ _ items x Hc Hx) as (raw & Hn).
  exact (normalize_status_published _ _ _ _ Hn Hs).
Qed.

(* ------------------------------------------------------------------ *)
(** ** Facts about [POST] *)

Lemma lookup_with_field_same (k : string) (v : json) (fs : list (string * json)) :
  lookup k (with_field k v fs) = Some v.
Proof.
  unfold with_field. destruct (existsb _ fs) eqn:E.
  - induction fs as [|[k' v'] fs IH]; simpl in *; [discriminate|].
    destruct (String.eqb_spec k' k) as [->|Hne]; simpl.
    + rewrite String.eqb_refl. reflexivity.
    + destruct (String.eqb_spec k k'); [congruence|]. apply IH. exact E.
  - induction fs as [|[k' v'] fs IH]; simpl in *.
    + rewrite String.eqb_refl. reflexivity.
    + destruct (String.eqb_spec k' k); [discriminate|].
      destruct (String.eqb_spec k k'); [congruence|]. apply IH. exact E.
Qed.

Lemma lookup_with_field_other (k k' : string) (v : json) (fs : list (string * json)) :
  k' <> k -> lookup k' (with_field k v fs) = lookup k' fs.
Proof.
  intros Hne. unfold with_field. destruct (existsb _ fs).
  - induction fs as [|[k0 v0] fs IH]; simpl; [reflexivity|].
    destruct (String.eqb_spec k0 k) as [->|]; simpl.
    + destruct (String.eqb_spec k' k); [contradiction|]. exact IH.
    + destruct (String.eqb k' k0); [reflexivity | exact IH].
  - induction fs as [|[k0 v0] fs IH]; simpl.
    + destruct (String.eqb_spec k' k); [contradiction | reflexivity].
    + destruct (String.eqb k' k0); [reflexivity | exact IH].
Qed.

Lemma post_folder_listed (t : string) :
  In t gallery_types -> In (post_json_folder t) (folder_paths t).
Proof. intros [<-|[<-|[<-|[<-|[]]]]]; simpl; auto. Qed.

Lemma put_folder_listed (t : string) :
  In t gallery_types -> In (put_json_folder t) (folder_paths t).
Proof. intros [<-|[<-|[<-|[<-|[]]]]]; simpl; auto. Qed.

Lemma json_blob_path_prefix (folder i sfx : string) :
  String.prefix (folder ++ "/") (json_blob_path folder i sfx) = true.
Proof. unfold json_blob_path. rewrite <- (append_assoc_str folder "/"). apply prefix_append. Qed.

Lemma json_blob_path_json (folder i sfx : string) :
  ends_with ".json" (json_blob_path folder i sfx) = true.
Proof. unfold json_blob_path. rewrite <- !append_assoc_str. apply ends_with_append. Qed.

Lemma pickType_known (q t : string) (r : list (string * json)) :
  getStr r "type" = Some t -> In t gallery_types -> pickType q r = t.
Proof. intros H Hin. unfold pickType. rewrite H. destruct Hin as [<-|[<-|[<-|[<-|[]]]]]; reflexivity. Qed.

Lemma normalize_obj (t now i : string) (r : list (string * json)) :
  getStr r "id" = Some i -> i <> "" -> normalize t now (JObj r) = Some (normalized t now r i).
Proof.
  intros H Hi. unfold normalize. rewrite H.
  destruct (String.eqb_spec i ""); [contradiction | reflexivity].
Qed.

Lemma alias_first (r : list (string * json)) (k k' s : string) :
  getStr r k = Some s -> s <> "" -> or_else (js_or (getStr r k) (getStr r k')) "" = s.
Proof.
  intros H Hs. rewrite (js_or_truthy _ _ s H Hs).
  unfold or_else, js_or, truthy_str. destruct (String.eqb_spec s ""); [contradiction | reflexivity].
Qed.

Lemma existsb_eqb_In (s : string) (l : list string) :
  existsb (String.eqb s) l = true <-> In s l.
Proof.
  rewrite existsb_exists. split.
  - intros (x & Hx & Heq). apply String.eqb_eq in Heq. subst. exact Hx.
  - intros H. exists s. split; [exact H | apply String.eqb_refl].
Qed.

Lemma pickStatus_form (r : list (string * json)) (f : list (string * form_value)) :
  lookup "status" r =
    Some (form_or (form_get f "status")
                  (JStr (if form_published f then "published" else "development"))) ->
  lookup "isPublished" r = Some (JBool (form_published f)) ->
  pickStatus r = form_status f.
Proof.
  intros Hs Hp. unfold form_status.
  set (d := if form_published f then "published" else "development") in *.
  assert (Hd : In d status_values) by (subst d; destruct (form_published f); simpl; auto).
  assert (Ht : is_true_field r "isPublished" = form_published f)
    by (unfold is_true_field; rewrite Hp; destruct (form_published f); reflexivity).
  destruct (pickStatus_cases r) as [P1 P2].
  destruct (form_get f "status") as [[s|n]|]; cbn [form_or form_truthy form_json] in Hs.
  - destruct (String.eqb s "") eqn:Es; cbn [negb] in Hs.
    + apply String.eqb_eq in Es. subst s.
      replace (existsb (String.eqb "") status_values) with false by reflexivity.
      apply P1; assumption.
    + destruct (existsb (String.eqb s) status_values) eqn:Ex.
      * apply P1; [exact Hs | apply existsb_eqb_In; exact Ex].
      * rewrite P2, Ht; [reflexivity|]. intros s0 Hs0 Hin. rewrite Hs in Hs0.
        injection Hs0 as <-. apply existsb_eqb_In in Hin. congruence.
  - rewrite P2, Ht; [reflexivity|]. intros s0 Hs0. rewrite Hs in Hs0. discriminate.
  - apply P1; assumption.
Qed.

Lemma form_opt_field_shape (k : string) (o : option form_value) :
  form_opt_field k o = [] \/ exists v, form_opt_field k o = [(k, v)].
Proof.
  unfold form_opt_field. destruct o as [v|]; [|left; reflexivity].
  destruct (form_truthy (Some v)); [right; eauto | left; reflexivity].
Qed.

Lemma form_item_normalize (rt : runtime) (t now i : string) (f : list (string * form_value))
  (ti co au : string) (img : option string) (obj : json) :
  In t gallery_types -> i <> "" -> ti <> "" -> co <> "" -> au <> "" ->
  (forall u, img = Some u -> u <> "") ->
  form_item rt t i f (FText ti) (FText co) (FText au) img = Some obj ->
  exists x, normalize t now obj = Some x /\
    id x = i /\ title x = ti /\ content x = co /\ author x = au /\ type x = t /\
    status x = Some (form_status f) /\
    isPublished x = form_published f || String.eqb (form_status f) "published" /\
    imageUrl x = img /\ screenshotUrls x = Some (option_to_list img).
Proof.
  intros Ht Hi N1 N2 N3 Hu Hobj.
  unfold form_item in Hobj. cbv zeta in Hobj. fold (form_published f) in Hobj.
  destruct (form_tags rt (form_get f "tags")) as [tl|]; [|discriminate].
  injection Hobj as <-. cbn [form_json].
  destruct (form_opt_field_shape "storeUrl" (form_get f "storeUrl")) as [E|[sv E]];
    rewrite E; clear E.
  all: match goal with |- context [normalize _ _ (JObj ?l)] => set (L := l) end.
  all: assert (Gid : getStr L "id" = Some i) by reflexivity.
  all: assert (Gti : getStr L "title" = Some ti) by reflexivity.
  all: assert (Gco : getStr L "content" = Some co) by reflexivity.
  all: assert (Gau : getStr L "author" = Some au) by reflexivity.
  all: assert (Gty : getStr L "type" = Some t) by (unfold L; destruct img; reflexivity).
  all: assert (Gst : lookup "status" L =
                Some (form_or (form_get f "status")
                        (JStr (if form_published f then "published" else "development"))))
         by (unfold L; destruct img; reflexivity).
  all: assert (Gpub : lookup "isPublished" L = Some (JBool (form_published f)))
         by (unfold L; destruct img; reflexivity).
  all: assert (Gimg : getStr L "imageUrl" = img) by (unfold L; destruct img; reflexivity).
  all: assert (Gicon : getStr L "iconUrl" = img) by (unfold L; destruct img; reflexivity).
  all: assert (Gshot : getArrStr L "screenshotUrls" = option_to_list img)
         by (unfold L; destruct img as [u|]; [pose proof (Hu u eq_refl) as Hne|];
             cbn; try reflexivity; rewrite (proj2 (String.eqb_neq u "") Hne); reflexivity).
  all: assert (Gfirst : firstImage L = img)
         by (unfold firstImage; rewrite Gimg, Gicon, Gshot;
             destruct img as [u|]; [apply js_or_truthy; auto | reflexivity]).
  all: assert (Htf : is_true_field L "isPublished" = form_published f)
         by (unfold is_true_field; rewrite Gpub; destruct (form_published f); reflexivity).
  all: exists (normalized t now L i); split; [apply normalize_obj; assumption|].
  all: unfold normalized;
       cbn [id title content author type status isPublished imageUrl screenshotUrls].
  all: rewrite (alias_first L "title" "name" ti Gti N1),
         (alias_first L "content" "description" co Gco N2),
         (alias_first L "author" "developer" au Gau N3), (pickType_known t t L Gty Ht),
         (pickStatus_form L f Gst Gpub), Gfirst, Htf.
  all: do 8 (split; [reflexivity|]); f_equal;
       unfold screenshot_list, screenshots; rewrite Gshot, Gfirst; destruct img; reflexivity.
Qed.

Lemma form_item_some (rt : runtime) (t i : string) (f : list (string * form_value))
  (ti co au : form_value) (img : option string) :
  (forall n, form_get f "tags" <> Some (FFile n)) ->
  exists obj, form_item rt t i f ti co au img = Some obj.
Proof.
  intros H. unfold form_item, form_tags.
  destruct (form_get f "tags") as [[s|n]|];
    [eexists; reflexivity | exfalso; exact (H n eq_refl) | eexists; reflexivity].
Qed.

Lemma form_item_none (rt : runtime) (t i : string) (f : list (string * form_value))
  (ti co au : form_value) (img : option string) :
  form_item rt t i f ti co au img = None -> exists n, form_get f "tags" = Some (FFile n).
Proof.
  unfold form_item, form_tags.
  destruct (form_get f "tags") as [[s|n]|]; [discriminate | eauto | discriminate].
Qed.

Lemma POST_form_ok (rt : runtime) (t : string) (f : list (string * form_value))
  (ti co au : string) (st : list stored) :
  t <> "" -> form_get f "title" = Some (FText ti) -> form_get f "content" = Some (FText co) ->
  form_get f "author" = Some (FText au) -> ti <> "" -> co <> "" -> au <> "" ->
  (forall s, form_get f "file" = Some (FText s) -> s = "") ->
  POST rt (Some t) (PostForm (Some f)) st =
  (let img := option_map (fun n => rt_base rt ++ image_path rt t n) (form_file f) in
   let st1 := match form_file f with
              | Some n => store_put (rt_base rt) st (image_path rt t n) None
              | None => st
              end in
   let jp := rt_path rt (post_json_folder t ++ "/" ++ post_id rt t ++ ".json") in
   match form_item rt t (post_id rt t) f (FText ti) (FText co) (FText au) img with
   | Some obj => (mkMutResponse 200 (MutItem obj (rt_base rt ++ jp)),
                  store_put (rt_base rt) st1 jp (Some obj))
   | None => (mkMutResponse 500 (MutError "갤러리 생성 실패"), st1)
   end).
Proof.
  intros Ht H1 H2 H3 N1 N2 N3 Hfile. unfold POST.
  destruct (String.eqb_spec t ""); [contradiction|]. rewrite H1, H2, H3.
  cbn [form_truthy].
  rewrite (proj2 (String.eqb_neq ti "") N1), (proj2 (String.eqb_neq co "") N2),
    (proj2 (String.eqb_neq au "") N3). cbn [negb andb].
  unfold form_file. destruct (form_get f "file") as [[s|nm]|] eqn:Ef.
  - rewrite (Hfile s eq_refl). reflexivity.
  - reflexivity.
  - reflexivity.
Qed.

Lemma gallery_types_nonempty (t : string) : In t gallery_types -> t <> "".
Proof. intros [<-|[<-|[<-|[<-|[]]]]]; discriminate. Qed.

Lemma filter_items_form (t : string) (items : list GalleryItem) (x : GalleryItem)
  (f : list (string * form_value)) :
  In t gallery_types -> In x items ->
  status x = Some (form_status f) ->
  isPublished x = form_published f || String.eqb (form_status f) "published" ->
  (In x (filter_items t items) <->
   form_published f = true \/ form_status f = "published" \/
   ((t = "gallery" \/ t = "normal") /\ form_status f = "in-review")).
Proof.
  intros Ht Hx Hs Hp. unfold filter_items.
  destruct Ht as [<-|[<-|[<-|[<-|[]]]]]; simpl; rewrite filter_In; cbn beta;
    unfold status_is; rewrite ?Hs, Hp;
    destruct (form_published f), (String.eqb_spec (form_status f) "published"),
      (String.eqb_spec (form_status f) "in-review"); simpl;
    intuition (try congruence).
Qed.

(** Which records read from a type's folders [GET] returns. *)
Lemma filter_items_collected (e : env) (t : string) (items : list GalleryItem)
  (x : GalleryItem) :
  In t gallery_types -> collect_items e t = Some items -> In x items ->
  (In x (filter_items t items) <->
   isPublished x = true \/ ((t = "gallery" \/ t = "normal") /\ status x = Some "in-review")).
Proof.
  intros Ht Hc Hx.
  destruct (collect_items_normalized e t items x Hc Hx) as (raw & Hn).
  pose proof (normalize_status_published _ _ _ _ Hn) as Hsp.
  unfold filter_items.
  destruct Ht as [<-|[<-|[<-|[<-|[]]]]]; simpl; rewrite filter_In; cbn beta; unfold status_is;
    destruct (isPublished x) eqn:Ep; try (simpl; tauto);
    destruct (status x) as [s|]; simpl;
    repeat match goal with |- context [String.eqb ?a ?b] => destruct (String.eqb_spec a b) end;
    simpl; intuition (try congruence); subst s; discriminate (Hsp eq_refl).
Qed.

Lemma append_nonempty (a b : string) : a <> "" -> a ++ b <> "".
Proof. destruct a; [contradiction | discriminate]. Qed.

Lemma post_id_nonempty (rt : runtime) (t : string) : post_id rt t <> "".
Proof. unfold post_id. destruct t; discriminate. Qed.

Lemma POST_form_core (rt : runtime) (t now sfx : string) (f : list (string * form_value))
  (ti co au : string) (st : list stored) :
  In t gallery_types ->
  form_get f "title" = Some (FText ti) -> form_get f "content" = Some (FText co) ->
  form_get f "author" = Some (FText au) -> ti <> "" -> co <> "" -> au <> "" ->
  (forall s, form_get f "file" = Some (FText s) -> s = "") ->
  (forall n, form_get f "tags" <> Some (FFile n)) ->
  rt_base rt <> "" ->
  rt_path rt (post_json_folder t ++ "/" ++ post_id rt t ++ ".json") =
    json_blob_path (post_json_folder t) (post_id rt t) sfx ->
  let img := option_map (fun n => rt_base rt ++ image_path rt t n) (form_file f) in
  mut_status (fst (POST rt (Some t) (PostForm (Some f)) st)) = 200 /\
  (forall n, form_file f = Some n ->
     image_path rt t n <> json_blob_path (post_json_folder t) (post_id rt t) sfx ->
     In (mkStored (image_path rt t n) (rt_base rt ++ image_path rt t n) None)
        (snd (POST rt (Some t) (PostForm (Some f)) st))) /\
  exists items x,
    collect_items (env_of_store (snd (POST rt (Some t) (PostForm (Some f)) st)) now) t
      = Some items /\ In x items /\
    id x = post_id rt t /\ title x = ti /\ content x = co /\ author x = au /\ type x = t /\
    status x = Some (form_status f) /\
    isPublished x = form_published f || String.eqb (form_status f) "published" /\
    imageUrl x = img /\ screenshotUrls x = Some (option_to_list img).
Proof.
  intros Ht H1 H2 H3 N1 N2 N3 Hfile Htags Hb Hpath img.
  rewrite (POST_form_ok rt t f ti co au st (gallery_types_nonempty t Ht) H1 H2 H3 N1 N2 N3 Hfile).
  cbv zeta. fold img.
  destruct (form_item_some rt t (post_id rt t) f (FText ti) (FText co) (FText au) img Htags)
    as [obj Hobj].
  rewrite Hobj. cbn [fst snd mut_status]. rewrite Hpath.
  set (P := json_blob_path (post_json_folder t) (post_id rt t) sfx).
  set (st1 := match form_file f with
              | Some n => store_put (rt_base rt) st (image_path rt t n) None
              | None => st
              end).
  split; [reflexivity|]. split.
  { intros n Hn Hne. unfold st1. rewrite Hn. cbv [store_put]. right. apply filter_In.
    split; [left; reflexivity|]. cbn beta; cbn [s_path].
    destruct (String.eqb_spec (image_path rt t n) P); [contradiction | reflexivity]. }
  assert (Himg : forall u, img = Some u -> u <> "").
  { intros u Hu. subst img. destruct (form_file f); [|discriminate].
    injection Hu as <-. apply append_nonempty; exact Hb. }
  destruct (form_item_normalize rt t now (post_id rt t) f ti co au img obj Ht
              (post_id_nonempty rt t) N1 N2 N3 Himg Hobj)
    as (x & Hn & Fid & Fti & Fco & Fau & Fty & Fst & Fpub & Fimg & Fshot).
  destruct (collect_items_store_in (store_put (rt_base rt) st1 P (Some obj)) now t
              (post_json_folder t) (mkStored P (rt_base rt ++ P) (Some obj)) obj x
              (post_folder_listed t Ht) ltac:(left; reflexivity)
              (json_blob_path_prefix _ _ _) (json_blob_path_json _ _ _)
              (store_fetch_put _ _ _ _) Hn) as (items & Hc & Hx).
  exists items, x. repeat (split; [assumption|]). assumption.
Qed.

(** X5: [POST] refuses a request with 400, and writes nothing, when the
    [type] parameter is missing or empty, when one of the form's [title],
    [content] and [author] entries is missing or an empty text (a file
    counts as present), or when a JSON body does not carry an
    object [item] with a truthy [id]; a JSON body that does not parse or is
    [null] gives 500, also without a write. *)
Theorem POST_rejects (rt : runtime) (st : list stored) :
  (forall req, POST rt None req st =
     (mkMutResponse 400 (MutError "Type parameter is required"), st)) /\
  (forall req, POST rt (Some "") req st =
     (mkMutResponse 400 (MutError "Type parameter is required"), st)) /\
  (forall t f, t <> "" ->
     form_truthy (form_get f "title") && form_truthy (form_get f "content")
       && form_truthy (form_get f "author") = false ->
     POST rt (Some t) (PostForm (Some f)) st =
       (mkMutResponse 400 (MutError "필수 필드가 누락되었습니다"), st)) /\
  (forall t body, t <> "" -> body <> JNull ->
     (forall bfs ifs, body = JObj bfs -> lookup "item" bfs = Some (JObj ifs) ->
                      id_truthy ifs = false) ->
     POST rt (Some t) (PostJson (Some body)) st =
       (mkMutResponse 400 (MutError "Item data and ID are required"), st)) /\
  (forall t body, t <> "" -> body = None \/ body = Some JNull ->
     POST rt (Some t) (PostJson body) st =
       (mkMutResponse 500 (MutError "갤러리 생성 실패"), st)).
Proof.
  split; [reflexivity|]. split; [reflexivity|]. split; [|split].
  - intros t f Ht H. unfold POST.
    rewrite (proj2 (String.eqb_neq t "") Ht).
    destruct (form_get f "title") as [ti|], (form_get f "content") as [co|],
      (form_get f "author") as [au|]; try reflexivity.
    rewrite H. reflexivity.
  - intros t body Ht Hnn H. unfold POST.
    rewrite (proj2 (String.eqb_neq t "") Ht).
    destruct body as [| | | | | bfs]; try reflexivity; [contradiction|].
    cbn [body_item].
    destruct (lookup "item" bfs) as [[| | | | | ifs]|] eqn:E; try reflexivity.
    rewrite (H bfs ifs eq_refl E). reflexivity.
  - intros t body Ht Hb. unfold POST.
    rewrite (proj2 (String.eqb_neq t "") Ht).
    destruct Hb as [-> | ->]; reflexivity.
Qed.

(** X6: a JSON [POST] of an item whose [id] is a non-empty string, under one
    of the four types, is read back from the folders of that type as the
    record the normalizer makes of the item with its [type] field set to
    the request's [type]: the record has the item's id and that type.
    [GET] of that type then answers 200 with a listing that holds the
    record exactly when it is published, or, for [gallery] and [normal],
    in review. *)
Theorem POST_json_read_back (rt : runtime) (dv : string -> option Z) (t now i sfx : string)
  (bfs fs : list (string * json)) (st : list stored) :
  In t gallery_types ->
  lookup "item" bfs = Some (JObj fs) ->
  lookup "id" fs = Some (JStr i) -> i <> "" ->
  rt_path rt (post_json_folder t ++ "/" ++ i ++ ".json") =
    json_blob_path (post_json_folder t) i sfx ->
  mut_status (fst (POST rt (Some t) (PostJson (Some (JObj bfs))) st)) = 200 /\
  exists items x,
    collect_items (env_of_store (snd (POST rt (Some t) (PostJson (Some (JObj bfs))) st)) now) t
      = Some items /\ In x items /\
    normalize t now (JObj (with_field "type" (JStr t) fs)) = Some x /\
    id x = i /\ type x = t /\
    GET (env_of_store (snd (POST rt (Some t) (PostJson (Some (JObj bfs))) st)) now) dv (Some t)
      = mkResponse 200 (ItemsBody (listing dv t items)) /\
    (In x (listing dv t items) <->
     isPublished x = true \/ ((t = "gallery" \/ t = "normal") /\ status x = Some "in-review")).
Proof.
  intros Ht Hitem Hid Hi Hpath.
  set (obj := JObj (with_field "type" (JStr t) fs)).
  set (P := json_blob_path (post_json_folder t) i sfx).
  assert (Hpost : POST rt (Some t) (PostJson (Some (JObj bfs))) st =
    (mkMutResponse 200 (MutItem obj (rt_base rt ++ P)),
     store_put (rt_base rt) st P (Some obj))).
  { unfold POST. rewrite (proj2 (String.eqb_neq t "") (gallery_types_nonempty t Ht)).
    cbn [body_item]. rewrite Hitem. unfold id_truthy. rewrite Hid. cbn [json_truthy].
    rewrite (proj2 (String.eqb_neq i "") Hi). cbn [negb js_string].
    rewrite Hpath. reflexivity. }
  rewrite Hpost. cbn [fst snd mut_status]. split; [reflexivity|].
  assert (Hgid : getStr (with_field "type" (JStr t) fs) "id" = Some i)
    by (unfold getStr; rewrite lookup_with_field_other by discriminate; rewrite Hid; reflexivity).
  assert (Hgty : getStr (with_field "type" (JStr t) fs) "type" = Some t)
    by (unfold getStr; rewrite lookup_with_field_same; reflexivity).
  assert (Hn : normalize t now obj = Some (normalized t now (with_field "type" (JStr t) fs) i))
    by (apply normalize_obj; assumption).
  destruct (collect_items_store_in (store_put (rt_base rt) st P (Some obj)) now t
              (post_json_folder t) (mkStored P (rt_base rt ++ P) (Some obj)) obj _
              (post_folder_listed t Ht) ltac:(left; reflexivity)
              (json_blob_path_prefix _ _ _) (json_blob_path_json _ _ _)
              (store_fetch_put _ _ _ _) Hn) as (items & Hc & Hx).
  exists items, (normalized t now (with_field "type" (JStr t) fs) i).
  split; [exact Hc|]. split; [exact Hx|]. split; [exact Hn|]. split; [reflexivity|].
  split; [apply pickType_known; assumption|].
  split; [apply GET_ok; [apply gallery_types_nonempty; exact Ht | exact Hc]|].
  rewrite listing_in. exact (filter_items_collected _ t items _ Ht Hc Hx).
Qed.

(** X7: a form [POST] with a non-empty [title], [content] and [author]
    under one of the four types is read back by the listing of that type
    as a record with the generated id [type-now-random], the form's title,
    content and author, that type, the status of the form when it is one
    of the three (else [published] or [development] after the
    [isPublished] entry), and [isPublished] set when the entry is ['true']
    or the status is [published]. [GET] then returns that record exactly
    when it is published, or, for [gallery] and [normal], in review. This
    holds for a form whose [title], [content] and [author] are text, whose
    [file] entry, if any, is a file or empty, and whose [tags] entry is not
    a file. *)
Theorem POST_form_read_back (rt : runtime) (dv : string -> option Z) (t now sfx : string)
  (f : list (string * form_value)) (ti co au : string)
  (st : list stored) :
  In t gallery_types ->
  form_get f "title" = Some (FText ti) -> form_get f "content" = Some (FText co) ->
  form_get f "author" = Some (FText au) -> ti <> "" -> co <> "" -> au <> "" ->
  (forall s, form_get f "file" = Some (FText s) -> s = "") ->
  (forall n, form_get f "tags" <> Some (FFile n)) ->
  rt_base rt <> "" ->
  rt_path rt (post_json_folder t ++ "/" ++ post_id rt t ++ ".json") =
    json_blob_path (post_json_folder t) (post_id rt t) sfx ->
  mut_status (fst (POST rt (Some t) (PostForm (Some f)) st)) = 200 /\
  exists items x,
    collect_items (env_of_store (snd (POST rt (Some t) (PostForm (Some f)) st)) now) t
      = Some items /\ In x items /\
    id x = post_id rt t /\ title x = ti /\ content x = co /\ author x = au /\ type x = t /\
    status x = Some (form_status f) /\
    isPublished x = form_published f || String.eqb (form_status f) "published" /\
    GET (env_of_store (snd (POST rt (Some t) (PostForm (Some f)) st)) now) dv (Some t)
      = mkResponse 200 (ItemsBody (listing dv t items)) /\
    (In x (listing dv t items) <->
     form_published f = true \/ form_status f = "published" \/
     ((t = "gallery" \/ t = "normal") /\ form_status f = "in-review")).
Proof.
  intros Ht H1 H2 H3 N1 N2 N3 Hfile Htags Hb Hpath.
  destruct (POST_form_core rt t now sfx f ti co au st Ht H1 H2 H3 N1 N2 N3 Hfile Htags Hb Hpath)
    as (Hok & _ & items & x & Hc & Hx & Fid & Fti & Fco & Fau & Fty & Fst & Fpub & _).
  split; [exact Hok|]. exists items, x.
  do 9 (split; [assumption|]).
  split; [apply GET_ok; [apply gallery_types_nonempty; exact Ht | exact Hc]|].
  rewrite listing_in. apply filter_items_form; assumption.
Qed.

(** X8: the image of a form [POST] is uploaded to the folder its JSON blob
    goes to, as [id.ext] with the extension of the file's name; the record
    the listing reads back links it as [imageUrl] and as its only
    screenshot. Without a file the record has no [imageUrl] and no
    screenshots. This holds for a form whose [title], [content] and
    [author] are text, whose [file] entry, if any, is a file or empty, and
    whose [tags] entry is not a file. *)
Theorem POST_form_image (rt : runtime) (t now sfx : string)
  (f : list (string * form_value)) (ti co au : string)
  (st : list stored) :
  In t gallery_types ->
  form_get f "title" = Some (FText ti) -> form_get f "content" = Some (FText co) ->
  form_get f "author" = Some (FText au) -> ti <> "" -> co <> "" -> au <> "" ->
  (forall s, form_get f "file" = Some (FText s) -> s = "") ->
  (forall n, form_get f "tags" <> Some (FFile n)) ->
  rt_base rt <> "" ->
  rt_path rt (post_json_folder t ++ "/" ++ post_id rt t ++ ".json") =
    json_blob_path (post_json_folder t) (post_id rt t) sfx ->
  (forall n, form_file f = Some n ->
     image_path rt t n <> json_blob_path (post_json_folder t) (post_id rt t) sfx ->
     In (mkStored (image_path rt t n) (rt_base rt ++ image_path rt t n) None)
        (snd (POST rt (Some t) (PostForm (Some f)) st))) /\
  exists items x,
    collect_items (env_of_store (snd (POST rt (Some t) (PostForm (Some f)) st)) now) t
      = Some items /\ In x items /\ id x = post_id rt t /\
    imageUrl x = option_map (fun n => rt_base rt ++ image_path rt t n) (form_file f) /\
    screenshotUrls x =
      Some (option_to_list (option_map (fun n => rt_base rt ++ image_path rt t n) (form_file f))).
Proof.
  intros Ht H1 H2 H3 N1 N2 N3 Hfile Htags Hb Hpath.
  destruct (POST_form_core rt t now sfx f ti co au st Ht H1 H2 H3 N1 N2 N3 Hfile Htags Hb Hpath)
    as (_ & Hin & items & x & Hc & Hx & Fid & _ & _ & _ & _ & _ & _ & Fimg & Fshot).
  split; [exact Hin|]. exists items, x. auto.
Qed.

(** X9: a JSON [POST] whose item has a numeric [id] succeeds and stores the
    item (under [String(id)].json), but the stored record never reaches a
    listing: the listing's normalizer requires a string [id]. *)
Theorem POST_json_numeric_id_unlisted (rt : runtime) (t now : string) (q : Q)
  (bfs fs : list (string * json)) (st : list stored) :
  t <> "" -> lookup "item" bfs = Some (JObj fs) -> lookup "id" fs = Some (JNum q) ->
  ~ (q == 0)%Q ->
  POST rt (Some t) (PostJson (Some (JObj bfs))) st =
    (mkMutResponse 200 (MutItem (JObj (with_field "type" (JStr t) fs))
       (rt_base rt ++ rt_path rt (post_json_folder t ++ "/" ++ rt_num_str rt q ++ ".json"))),
     store_put (rt_base rt) st
       (rt_path rt (post_json_folder t ++ "/" ++ rt_num_str rt q ++ ".json"))
       (Some (JObj (with_field "type" (JStr t) fs)))) /\
  items_of_data t now (JObj (with_field "type" (JStr t) fs)) = [].
Proof.
  intros Ht Hitem Hid Hq.
  assert (Hz : Qeq_bool q 0 = false)
    by (destruct (Qeq_bool q 0) eqn:E; [apply Qeq_bool_iff in E; contradiction | reflexivity]).
  split.
  - unfold POST. rewrite (proj2 (String.eqb_neq t "") Ht).
    cbn [body_item]. rewrite Hitem. unfold id_truthy. rewrite Hid. cbn [json_truthy].
    rewrite Hz. reflexivity.
  - unfold items_of_data. cbn [json_truthy prop_id andb].
    rewrite lookup_with_field_other by discriminate. rewrite Hid. cbn [json_truthy].
    rewrite Hz. cbn [negb]. unfold normalize, getStr.
    rewrite lookup_with_field_other by discriminate. rewrite Hid. reflexivity.
Qed.

(* ------------------------------------------------------------------ *)
(** ** Facts about [PUT] and [DELETE] *)

Lemma all_blobs_from (st : list stored) (t : string) (b : blob) :
  In b (all_blobs st t) -> exists s, In s st /\ b = to_blob s.
Proof.
  unfold all_blobs, store_blobs. intros H.
  apply in_flat_map in H as (f & _ & H). apply in_map_iff in H as (s & <- & H).
  apply filter_In in H. exists s. split; [tauto | reflexivity].
Qed.

Lemma find_none_all {A} (g : A -> bool) (l : list A) :
  (forall x, In x l -> g x = false) -> find g l = None.
Proof.
  induction l as [|a l IH]; simpl; intros H; [reflexivity|].
  rewrite H by auto. apply IH. auto.
Qed.

Lemma find_in_some {A} (g : A -> bool) (l : list A) (x : A) :
  In x l -> g x = true -> exists y, find g l = Some y.
Proof.
  intros Hin Hg. destruct (find g l) as [y|] eqn:E; [eauto|].
  pose proof (find_none g l E x Hin). congruence.
Qed.

Lemma find_unique {A} (g : A -> bool) (l : list A) (x : A) :
  In x l -> g x = true -> (forall y, In y l -> g y = true -> y = x) -> find g l = Some x.
Proof.
  intros Hin Hg Hu. destruct (find g l) as [y|] eqn:E.
  - apply find_some in E as [Hy Hgy]. f_equal. apply Hu; assumption.
  - pose proof (find_none g l E x Hin). congruence.
Qed.

Lemma prefix_app_l (x y s : string) :
  String.prefix (x ++ y) s = true -> String.prefix x s = true.
Proof.
  revert s. induction x as [|a x IH]; intros s H; [destruct s; reflexivity|].
  destruct s as [|b s]; simpl in *; [discriminate|].
  destruct (ascii_dec a b); [apply IH; exact H | discriminate].
Qed.

Lemma includes_app_l (x y s : string) :
  includes (x ++ y) s = true -> includes x s = true.
Proof.
  induction s as [|c s IH]; cbn [includes]; intros H;
    apply orb_true_iff in H as [H|H]; apply orb_true_iff.
  - left. exact (prefix_app_l x y _ H).
  - discriminate.
  - left. exact (prefix_app_l x y _ H).
  - right. apply IH. exact H.
Qed.

Lemma includes_prefix (sub s : string) : String.prefix sub s = true -> includes sub s = true.
Proof. intros H. destruct s; cbn [includes]; rewrite H; reflexivity. Qed.

Lemma includes_middle (a sub b : string) : includes sub (a ++ sub ++ b) = true.
Proof.
  induction a as [|c a IH]; cbn [append].
  - apply includes_prefix, prefix_append.
  - cbn [includes]. rewrite IH. apply orb_true_r.
Qed.

Lemma includes_suffix (a sub : string) : includes sub (a ++ sub) = true.
Proof.
  assert (E : sub ++ "" = sub)
    by (induction sub as [|c s IH]; simpl; [reflexivity | rewrite IH; reflexivity]).
  rewrite <- E at 2. apply includes_middle.
Qed.

Lemma append_cancel_l (a x y : string) : a ++ x = a ++ y -> x = y.
Proof. induction a as [|c a IH]; simpl; [auto | intros H; injection H; exact IH]. Qed.

Lemma store_del_removed (st : list stored) (u : string) (s : stored) :
  In s st -> ~ In s (store_del st u) -> s_url s = u.
Proof.
  intros Hin Hn. destruct (String.eqb_spec (s_url s) u) as [|Hne]; [assumption|].
  exfalso. apply Hn. apply filter_In. split; [exact Hin|].
  apply negb_true_iff, String.eqb_neq. exact Hne.
Qed.

Lemma store_del_sub (st : list stored) (u : string) (s : stored) :
  In s (store_del st u) -> In s st.
Proof. intros H. apply filter_In in H. tauto. Qed.

Lemma json_path_json (f i : string) : ends_with ".json" (f ++ "/" ++ i ++ ".json") = true.
Proof. exact (json_blob_path_json f i ""). Qed.

(** The id's JSON blob is matched by [json_blob_of]. *)
Lemma json_blob_of_path (f i : string) (b : blob) :
  pathname b = f ++ "/" ++ i ++ ".json" -> json_blob_of i b = true.
Proof.
  intros H. unfold json_blob_of. rewrite H.
  rewrite json_path_json. apply includes_suffix.
Qed.

Lemma dot_json_split (f i : string) :
  f ++ "/" ++ i ++ ".json" = f ++ ("/" ++ i ++ ".") ++ "json".
Proof. rewrite !append_assoc_str. reflexivity. Qed.

(** [DELETE] of [i] on a store that holds the JSON blob of [i], possibly
    one image of [i], and blobs that do not mention [/i.]. *)
Lemma DELETE_fresh (t i base F PJ : string) (obj : json) (X st : list stored) :
  t <> "" -> i <> "" -> In F (folder_paths t) -> PJ = F ++ "/" ++ i ++ ".json" ->
  (forall s, In s st -> s_url s = base ++ s_path s) ->
  (forall s, In s st -> includes ("/" ++ i ++ ".") (s_path s) = false) ->
  X = [] \/
  (exists PI, X = [mkStored PI (base ++ PI) None] /\
              String.prefix (F ++ "/") PI = true /\
              includes ("/" ++ i ++ ".") PI = true /\ ends_with ".json" PI = false) ->
  DELETE (Some t) (Some i) (mkStored PJ (base ++ PJ) (Some obj) :: X ++ st) =
  (mkMutResponse 200 MutDone, st).
Proof.
  intros Ht Hi HF HPJ Hwf Hfr HX.
  assert (HJdot : includes ("/" ++ i ++ ".") PJ = true)
    by (rewrite HPJ, dot_json_split; apply includes_middle).
  assert (HJjson : ends_with ".json" PJ = true)
    by (rewrite HPJ; exact (json_blob_path_json F i "")).
  assert (Hst_ne : forall s, In s st -> forall p, includes ("/" ++ i ++ ".") p = true ->
                   s_path s <> p)
    by (intros s Hs p Hp Heq; rewrite <- Heq, (Hfr s Hs) in Hp; discriminate).
  set (J := mkStored PJ (base ++ PJ) (Some obj)).
  set (st2 := J :: X ++ st).
  assert (HXin : forall s, In s X -> s_url s = base ++ s_path s /\
                 includes ("/" ++ i ++ ".") (s_path s) = true /\
                 ends_with ".json" (s_path s) = false /\
                 String.prefix (F ++ "/") (s_path s) = true).
  { intros s Hs. destruct HX as [-> | (PI & -> & H1 & H2 & H3)]; [destruct Hs|].
    destruct Hs as [<-|[]]. auto. }
  unfold DELETE. rewrite (proj2 (String.eqb_neq t "") Ht), (proj2 (String.eqb_neq i "") Hi).
  cbn [orb].
  assert (Hfind : find (json_blob_of i) (all_blobs st2 t) = Some (to_blob J)).
  { apply find_unique.
    - apply (all_blobs_in st2 t F J HF (or_introl eq_refl)).
      cbn [s_path J]. rewrite HPJ, <- (append_assoc_str F "/"). apply prefix_append.
    - apply (json_blob_of_path F). exact HPJ.
    - intros y Hy Hg. apply all_blobs_from in Hy as (s & Hs & ->).
      destruct Hs as [<-|Hs]; [reflexivity|]. apply in_app_or in Hs as [Hs|Hs].
      + destruct (HXin s Hs) as (_ & _ & Hj & _). unfold json_blob_of in Hg.
        cbn [pathname to_blob] in Hg. rewrite Hj in Hg. discriminate.
      + unfold json_blob_of in Hg. cbn [pathname to_blob] in Hg.
        apply andb_prop in Hg as [_ Hg].
        assert (E : "/" ++ i ++ ".json" = ("/" ++ i ++ ".") ++ "json")
          by (rewrite !append_assoc_str; reflexivity).
        rewrite E in Hg. apply includes_app_l in Hg. rewrite (Hfr s Hs) in Hg. discriminate. }
  rewrite Hfind. cbn [url to_blob s_url J].
  assert (Hdel1 : store_del st2 (base ++ PJ) = (X ++ st)%list).
  { unfold store_del, st2. cbn [filter s_url J]. rewrite String.eqb_refl. cbn [negb].
    rewrite filter_app. f_equal; apply filter_all; intros s Hs;
      apply negb_true_iff, String.eqb_neq; intros Heq.
    - destruct (HXin s Hs) as (Hu & _ & Hj & _). rewrite Hu in Heq.
      apply append_cancel_l in Heq. rewrite Heq in Hj. congruence.
    - rewrite (Hwf s Hs) in Heq. apply append_cancel_l in Heq.
      exact (Hst_ne s Hs PJ HJdot Heq). }
  rewrite Hdel1.
  destruct HX as [HX0 | (PI & HX1 & HPf & HPd & HPj)].
  - rewrite find_none_all; [rewrite HX0; reflexivity|].
    intros y Hy. apply all_blobs_from in Hy as (s & Hs & ->).
    cbn [pathname to_blob]. apply andb_false_iff.
    destruct Hs as [<-|Hs]; [right; cbn [s_path J]; rewrite HJjson; reflexivity|].
    rewrite HX0 in Hs. left. exact (Hfr s Hs).
  - set (I := mkStored PI (base ++ PI) None) in *.
    assert (Himg : find (fun b => includes ("/" ++ i ++ ".") (pathname b)
                                  && negb (ends_with ".json" (pathname b)))
                     (all_blobs st2 t) = Some (to_blob I)).
    { apply find_unique.
      - apply (all_blobs_in st2 t F I HF); [right; rewrite HX1; left; reflexivity | exact HPf].
      - cbn [pathname to_blob s_path I]. rewrite HPd, HPj. reflexivity.
      - intros y Hy Hg. apply all_blobs_from in Hy as (s & Hs & ->).
        cbn [pathname to_blob] in Hg. apply andb_prop in Hg as [Hg1 Hg2].
        destruct Hs as [<-|Hs]; [cbn [s_path J] in Hg2; rewrite HJjson in Hg2; discriminate|].
        rewrite HX1 in Hs. destruct Hs as [<-|Hs]; [reflexivity|].
        rewrite (Hfr s Hs) in Hg1. discriminate. }
    rewrite Himg. cbn [url to_blob s_url I]. rewrite HX1.
    unfold store_del. cbn [filter app s_url I]. rewrite String.eqb_refl. cbn [negb].
    f_equal. apply filter_all. intros s Hs. apply negb_true_iff, String.eqb_neq.
    intros Heq. rewrite (Hwf s Hs) in Heq. apply append_cancel_l in Heq.
    exact (Hst_ne s Hs PI HPd Heq).
Qed.

(** X4: when the store's calls succeed, an answer of [POST], [PUT] or
    [DELETE] other than 200 leaves the store as it was, with one exception:
    a form [POST] that attaches a file as [file] and also a file as [tags]
    uploads the image, then fails on the tags, and its 500 leaves the
    uploaded image in the store. *)
Theorem handlers_error_keep_store (rt : runtime) (q : option string) (st : list stored) :
  (forall req, mut_status (fst (POST rt q req st)) <> 200 ->
     snd (POST rt q req st) = st \/
     exists t f n tg, q = Some t /\ req = PostForm (Some f) /\
       form_get f "file" = Some (FFile n) /\ form_get f "tags" = Some (FFile tg) /\
       snd (POST rt q req st) = store_put (rt_base rt) st (image_path rt t n) None) /\
  (forall body, mut_status (fst (PUT rt q body st)) <> 200 -> snd (PUT rt q body st) = st) /\
  (forall qid, mut_status (fst (DELETE q qid st)) <> 200 -> snd (DELETE q qid st) = st).
Proof.
  split; [|split].
  - intros req H. destruct q as [t|]; [|left; reflexivity].
    destruct req as [[body|]|[form|]] eqn:Er; try (left; reflexivity);
      unfold POST in *; (destruct (String.eqb t ""); [left; reflexivity|]).
    + destruct (body_item body) as [[[| | | | | fs]|]|]; try (left; reflexivity).
      destruct (id_truthy fs); [|left; reflexivity].
      cbv zeta in *.
      destruct (lookup "id" fs) as [v|];
        [destruct (js_string (rt_num_str rt) v)|];
        solve [left; reflexivity | exfalso; apply H; reflexivity].
    + left; reflexivity.
    + destruct (form_get form "title") as [ti|], (form_get form "content") as [co|],
        (form_get form "author") as [au|]; try (left; reflexivity).
      destruct (negb _); [left; reflexivity|].
      cbv zeta in *.
      destruct (form_get form "file") as [[fs|fname]|] eqn:Ef.
      * destruct (String.eqb fs ""); [|left; reflexivity].
        match goal with |- context [form_item ?a ?b ?c ?d ?e ?g ?h ?k] =>
          destruct (form_item a b c d e g h k) eqn:Ei end;
          [exfalso; apply H; reflexivity | left; reflexivity].
      * match goal with |- context [form_item ?a ?b ?c ?d ?e ?g ?h ?k] =>
          destruct (form_item a b c d e g h k) eqn:Ei end;
          [exfalso; apply H; reflexivity|].
        right. destruct (form_item_none _ _ _ _ _ _ _ _ Ei) as [tg Htg].
        exists t, form, fname, tg. repeat split; assumption.
      * match goal with |- context [form_item ?a ?b ?c ?d ?e ?g ?h ?k] =>
          destruct (form_item a b c d e g h k) eqn:Ei end;
          [exfalso; apply H; reflexivity | left; reflexivity].
    + left; reflexivity.
  - intros body H. unfold PUT in *. destruct q as [t|]; [|reflexivity].
    destruct (String.eqb t ""); [reflexivity|].
    destruct body as [b|]; [|reflexivity].
    destruct (body_item b) as [[[| | | | | fs]|]|]; try reflexivity.
    destruct (id_truthy fs); [|reflexivity].
    cbv zeta in *.
    destruct (lookup "id" fs) as [v|]; [destruct (js_string (rt_num_str rt) v) as [idv|]|].
    + match goal with |- context [find ?g ?l] => destruct (find g l) end;
        [exfalso; apply H; reflexivity | reflexivity].
    + destruct (existsb _ _); reflexivity.
    + match goal with |- context [find ?g ?l] => destruct (find g l) end;
        [exfalso; apply H; reflexivity | reflexivity].
  - intros qid H. unfold DELETE in *. destruct q as [t|], qid as [i|]; try reflexivity.
    destruct (String.eqb t "" || String.eqb i ""); [reflexivity|].
    match goal with |- context [find (json_blob_of i) ?l] =>
      destruct (find (json_blob_of i) l) end; [|reflexivity].
    exfalso; apply H.
    match goal with |- context [match find ?g ?l with _ => _ end] => destruct (find g l) end;
      reflexivity.
Qed.

(** X10: [PUT] answers 400 without a write when the [type] parameter is
    missing or empty, or when the body parses to a value other than [null]
    that carries no object [item] with a truthy [id]; a body that does not
    parse or is [null] gives 500 without a write. With a truthy [id] whose
    text [`${id}`] exists, it answers 404 without a write when no stored
    blob's pathname contains [/{id}.json]: [PUT] never creates an item. An
    [id] whose text throws (an object with its own [toString]) gives 500
    without a write when a blob of the type's folders ends in [.json], and
    404 without a write when none does. *)
Theorem PUT_rejects (rt : runtime) (st : list stored) :
  (forall body, PUT rt None body st =
     (mkMutResponse 400 (MutError "Type parameter is required"), st)) /\
  (forall body, PUT rt (Some "") body st =
     (mkMutResponse 400 (MutError "Type parameter is required"), st)) /\
  (forall t b, t <> "" -> b <> JNull ->
     (forall bfs ifs, b = JObj bfs -> lookup "item" bfs = Some (JObj ifs) ->
                      id_truthy ifs = false) ->
     PUT rt (Some t) (Some b) st =
       (mkMutResponse 400 (MutError "Item data and ID are required"), st)) /\
  (forall t, t <> "" ->
     PUT rt (Some t) None st = (mkMutResponse 500 (MutError "갤러리 편집 실패"), st) /\
     PUT rt (Some t) (Some JNull) st = (mkMutResponse 500 (MutError "갤러리 편집 실패"), st)) /\
  (forall t bfs fs v s, t <> "" -> lookup "item" bfs = Some (JObj fs) ->
     lookup "id" fs = Some v -> json_truthy v = true ->
     js_string (rt_num_str rt) v = Some s ->
     (forall x, In x st -> includes ("/" ++ s ++ ".json") (s_path x) = false) ->
     PUT rt (Some t) (Some (JObj bfs)) st =
       (mkMutResponse 404 (MutError "Item not found"), st)) /\
  (forall t bfs fs v, t <> "" -> lookup "item" bfs = Some (JObj fs) ->
     lookup "id" fs = Some v -> json_truthy v = true ->
     js_string (rt_num_str rt) v = None ->
     ((exists b, In b (all_blobs st t) /\ ends_with ".json" (pathname b) = true) ->
      PUT rt (Some t) (Some (JObj bfs)) st =
        (mkMutResponse 500 (MutError "갤러리 편집 실패"), st)) /\
     ((forall b, In b (all_blobs st t) -> ends_with ".json" (pathname b) = false) ->
      PUT rt (Some t) (Some (JObj bfs)) st =
        (mkMutResponse 404 (MutError "Item not found"), st))).
Proof.
  split; [reflexivity|]. split; [reflexivity|]. split; [|split; [|split]].
  - intros t b Ht Hnn H. unfold PUT.
    rewrite (proj2 (String.eqb_neq t "") Ht).
    destruct b as [| | | | | bfs]; try reflexivity; [contradiction|].
    cbn [body_item].
    destruct (lookup "item" bfs) as [[| | | | | ifs]|] eqn:E; try reflexivity.
    rewrite (H bfs ifs eq_refl E). reflexivity.
  - intros t Ht. unfold PUT. rewrite (proj2 (String.eqb_neq t "") Ht). split; reflexivity.
  - intros t bfs fs v sv Ht Hitem Hid Hv Hs Hno. unfold PUT.
    rewrite (proj2 (String.eqb_neq t "") Ht). cbn [body_item]. rewrite Hitem.
    unfold id_truthy. rewrite Hid, Hv. cbv zeta. rewrite Hs.
    rewrite find_none_all; [reflexivity|].
    intros y Hy. apply all_blobs_from in Hy as (x & Hx & ->).
    unfold json_blob_of. cbn [pathname to_blob]. rewrite (Hno x Hx). apply andb_false_r.
  - intros t bfs fs v Ht Hitem Hid Hv Hs.
    unfold PUT. rewrite (proj2 (String.eqb_neq t "") Ht). cbn [body_item]. rewrite Hitem.
    unfold id_truthy. rewrite Hid, Hv. cbv zeta. rewrite Hs. split.
    + intros Hex. apply existsb_exists in Hex. rewrite Hex. reflexivity.
    + intros Hall.
      destruct (existsb (fun b => ends_with ".json" (pathname b)) (all_blobs st t)) eqn:E;
        [|reflexivity].
      apply existsb_exists in E as (y & Hy & Hy'). rewrite (Hall y Hy) in Hy'. discriminate.
Qed.

(** X11: a [PUT] of an item with a non-empty string [id], under one of the
    four types, when a JSON blob [{folder}/{id}.json] of one of the type's
    folders is stored, deletes a JSON blob of that id listed under the
    type's folders (its URL only remains if the new blob takes it), writes
    the item as sent (its [type] field is not touched) to [{folder}/{id}.json]
    of the [PUT] folder, and the listing of the type reads the item back. *)
Theorem PUT_read_back (rt : runtime) (t now i sfx fo : string)
  (bfs fs : list (string * json)) (s0 : stored) (st : list stored) :
  In t gallery_types -> lookup "item" bfs = Some (JObj fs) ->
  lookup "id" fs = Some (JStr i) -> i <> "" ->
  In s0 st -> In fo (folder_paths t) -> s_path s0 = fo ++ "/" ++ i ++ ".json" ->
  rt_path rt (put_json_folder t ++ "/" ++ i ++ ".json") =
    json_blob_path (put_json_folder t) i sfx ->
  mut_status (fst (PUT rt (Some t) (Some (JObj bfs)) st)) = 200 /\
  store_fetch (snd (PUT rt (Some t) (Some (JObj bfs)) st))
    (rt_base rt ++ json_blob_path (put_json_folder t) i sfx)
    = FetchResponse true (Some (JObj fs)) /\
  (exists b, In b (all_blobs st t) /\ json_blob_of i b = true /\
     forall s, In s (snd (PUT rt (Some t) (Some (JObj bfs)) st)) -> s_url s = url b ->
               s_path s = json_blob_path (put_json_folder t) i sfx) /\
  exists items x,
    collect_items (env_of_store (snd (PUT rt (Some t) (Some (JObj bfs)) st)) now) t
      = Some items /\ In x items /\ normalize t now (JObj fs) = Some x.
Proof.
  intros Ht Hitem Hid Hi Hs0 Hfo Hp0 Hpath.
  set (P := json_blob_path (put_json_folder t) i sfx).
  assert (Hb0 : In (to_blob s0) (all_blobs st t)).
  { apply (all_blobs_in st t fo s0 Hfo Hs0). rewrite Hp0, <- (append_assoc_str fo "/").
    apply prefix_append. }
  destruct (find_in_some (json_blob_of i) (all_blobs st t) (to_blob s0) Hb0
              (json_blob_of_path fo i (to_blob s0) Hp0)) as (old & Hold).
  destruct (find_some _ _ Hold) as [Hold_in Hold_g].
  assert (Hput : PUT rt (Some t) (Some (JObj bfs)) st =
    (mkMutResponse 200 (MutItem (JObj fs) (rt_base rt ++ P)),
     store_put (rt_base rt) (store_del st (url old)) P (Some (JObj fs)))).
  { unfold PUT. rewrite (proj2 (String.eqb_neq t "") (gallery_types_nonempty t Ht)).
    cbn [body_item]. rewrite Hitem. unfold id_truthy. rewrite Hid. cbn [json_truthy].
    rewrite (proj2 (String.eqb_neq i "") Hi). cbn [negb js_string].
    rewrite Hold, Hpath. reflexivity. }
  rewrite Hput. cbn [fst snd mut_status].
  split; [reflexivity|]. split; [apply store_fetch_put|]. split.
  - exists old. split; [exact Hold_in|]. split; [exact Hold_g|].
    intros s Hs Hu. destruct Hs as [<-|Hs]; [reflexivity|].
    apply filter_In in Hs as [Hs _]. apply filter_In in Hs as [_ Hs].
    rewrite Hu, String.eqb_refl in Hs. discriminate.
  - assert (Hn : normalize t now (JObj fs) = Some (normalized t now fs i))
      by (apply normalize_obj; [apply getStr_lookup; exact Hid | exact Hi]).
    destruct (collect_items_store_in (store_put (rt_base rt) (store_del st (url old)) P
                (Some (JObj fs))) now t (put_json_folder t)
                (mkStored P (rt_base rt ++ P) (Some (JObj fs))) (JObj fs) _
                (put_folder_listed t Ht) ltac:(left; reflexivity)
                (json_blob_path_prefix _ _ _) (json_blob_path_json _ _ _)
                (store_fetch_put _ _ _ _) Hn) as (items & Hc & Hx).
    exists items, (normalized t now fs i). auto.
Qed.

(** X12: [DELETE] answers 400 without a write when the [type] or the [id]
    parameter is missing or empty, and 404 without a write when no stored
    blob's pathname contains [/{id}.json]. *)
Theorem DELETE_rejects (st : list stored) :
  (forall qid, DELETE None qid st =
     (mkMutResponse 400 (MutError "Type and ID parameters are required"), st)) /\
  (forall qt, DELETE qt None st =
     (mkMutResponse 400 (MutError "Type and ID parameters are required"), st)) /\
  (forall qid, DELETE (Some "") qid st =
     (mkMutResponse 400 (MutError "Type and ID parameters are required"), st)) /\
  (forall qt, DELETE qt (Some "") st =
     (mkMutResponse 400 (MutError "Type and ID parameters are required"), st)) /\
  (forall t i, t <> "" -> i <> "" ->
     (forall s, In s st -> includes ("/" ++ i ++ ".json") (s_path s) = false) ->
     DELETE (Some t) (Some i) st = (mkMutResponse 404 (MutError "Item not found"), st)).
Proof.
  split; [reflexivity|]. split; [intros [t|]; reflexivity|].
  split; [intros [i|]; reflexivity|]. split.
  - intros [t|]; [|reflexivity]. unfold DELETE. rewrite orb_true_r. reflexivity.
  - intros t i Ht Hi Hno. unfold DELETE.
    rewrite (proj2 (String.eqb_neq t "") Ht), (proj2 (String.eqb_neq i "") Hi).
    cbn [orb]. rewrite find_none_all; [reflexivity|].
    intros y Hy. apply all_blobs_from in Hy as (s & Hs & ->).
    unfold json_blob_of. cbn [pathname to_blob]. rewrite (Hno s Hs). apply andb_false_r.
Qed.

(** X13: [DELETE] undoes a form [POST]: on a store whose blobs are served
    at the store's prefix followed by their pathname and whose pathnames do
    not contain [/{id}.] for the new id, deleting the new id under the same
    type, after the [POST] stored its blobs without a random suffix (and an
    image whose path does not end in [.json]), gives back the store as it
    was before the [POST]: the JSON blob and the image are both removed.
    This holds for a form whose [title], [content] and [author] are text,
    whose [file] entry, if any, is a file or empty, and whose [tags] entry
    is not a file. *)
Theorem DELETE_undoes_POST_form (rt : runtime) (t : string) (f : list (string * form_value))
  (ti co au : string) (st : list stored) :
  In t gallery_types ->
  form_get f "title" = Some (FText ti) -> form_get f "content" = Some (FText co) ->
  form_get f "author" = Some (FText au) -> ti <> "" -> co <> "" -> au <> "" ->
  (forall s, form_get f "file" = Some (FText s) -> s = "") ->
  (forall n, form_get f "tags" <> Some (FFile n)) ->
  rt_path rt (post_json_folder t ++ "/" ++ post_id rt t ++ ".json") =
    post_json_folder t ++ "/" ++ post_id rt t ++ ".json" ->
  (forall n, form_file f = Some n ->
     image_path rt t n =
       post_json_folder t ++ "/" ++ post_id rt t ++ "." ++ last (split_on "." n) "" /\
     ends_with ".json" (image_path rt t n) = false) ->
  (forall s, In s st -> s_url s = rt_base rt ++ s_path s) ->
  (forall s, In s st -> includes ("/" ++ post_id rt t ++ ".") (s_path s) = false) ->
  DELETE (Some t) (Some (post_id rt t)) (snd (POST rt (Some t) (PostForm (Some f)) st)) =
  (mkMutResponse 200 MutDone, st).
Proof.
  intros Ht H1 H2 H3 N1 N2 N3 Hfile Htags Hj Himg Hwf Hfr.
  rewrite (POST_form_ok rt t f ti co au st (gallery_types_nonempty t Ht) H1 H2 H3 N1 N2 N3
             Hfile).
  cbv zeta.
  destruct (form_item_some rt t (post_id rt t) f (FText ti) (FText co) (FText au)
              (option_map (fun n => rt_base rt ++ image_path rt t n) (form_file f)) Htags)
    as [obj Hobj].
  rewrite Hobj. cbn [snd]. rewrite Hj.
  set (i := post_id rt t) in *. set (F := post_json_folder t) in *.
  set (PJ := F ++ "/" ++ i ++ ".json").
  assert (HJdot : includes ("/" ++ i ++ ".") PJ = true)
    by (unfold PJ; rewrite dot_json_split; apply includes_middle).
  assert (Hst_ne : forall s, In s st -> forall p, includes ("/" ++ i ++ ".") p = true ->
                   s_path s <> p)
    by (intros s Hs p Hp Heq; rewrite <- Heq, (Hfr s Hs) in Hp; discriminate).
  assert (Hkeep : forall p, includes ("/" ++ i ++ ".") p = true ->
                  filter (fun s => negb (String.eqb (s_path s) p)) st = st).
  { intros p Hp. apply filter_all. intros s Hs. apply negb_true_iff, String.eqb_neq.
    exact (Hst_ne s Hs p Hp). }
  clear Hobj. destruct (form_file f) as [n|].
  - destruct (Himg n eq_refl) as [HPI HPj].
    set (PI := image_path rt t n) in *.
    assert (HPdot : includes ("/" ++ i ++ ".") PI = true).
    { rewrite HPI.
      assert (E : F ++ "/" ++ i ++ "." ++ last (split_on "." n) "" =
                  F ++ ("/" ++ i ++ ".") ++ last (split_on "." n) "")
        by (rewrite !append_assoc_str; reflexivity).
      rewrite E. apply includes_middle. }
    assert (HJne : PI <> PJ).
    { intros Heq. rewrite Heq in HPj. unfold PJ in HPj.
      rewrite json_path_json in HPj. discriminate. }
    assert (Hstore : store_put (rt_base rt) (store_put (rt_base rt) st PI None) PJ (Some obj)
                     = mkStored PJ (rt_base rt ++ PJ) (Some obj) ::
                       [mkStored PI (rt_base rt ++ PI) None] ++ st).
    { unfold store_put at 2. rewrite (Hkeep PI HPdot).
      unfold store_put. cbn [filter s_path]. rewrite (proj2 (String.eqb_neq PI PJ) HJne).
      cbn [negb]. rewrite (Hkeep PJ HJdot). reflexivity. }
    rewrite Hstore.
    apply (DELETE_fresh t i (rt_base rt) F PJ obj _ st (gallery_types_nonempty t Ht)
             (post_id_nonempty rt t) (post_folder_listed t Ht) eq_refl Hwf Hfr).
    right. exists PI. split; [reflexivity|]. split; [|split; assumption].
    rewrite HPI, <- (append_assoc_str F "/"). apply prefix_append.
  - assert (Hstore : store_put (rt_base rt) st PJ (Some obj)
                     = mkStored PJ (rt_base rt ++ PJ) (Some obj) :: [] ++ st).
    { unfold store_put. rewrite (Hkeep PJ HJdot). reflexivity. }
    rewrite Hstore.
    apply (DELETE_fresh t i (rt_base rt) F PJ obj [] st (gallery_types_nonempty t Ht)
             (post_id_nonempty rt t) (post_folder_listed t Ht) eq_refl Hwf Hfr).
    left. reflexivity.
Qed.

(** X14: [DELETE] only removes: every blob of the store after it was in the
    store before, and every blob it removed shares its URL with a blob
    listed under the folders of the request's [type]. *)
Theorem DELETE_only_removes (qt qid : option string) (st : list stored) :
  (forall s, In s (snd (DELETE qt qid st)) -> In s st) /\
  (forall t, qt = Some t -> forall s, In s st -> ~ In s (snd (DELETE qt qid st)) ->
     exists b, In b (all_blobs st t) /\ s_url s = url b).
Proof.
  unfold DELETE. destruct qt as [t|]; [|split; [auto | intros t' Ht'; discriminate]].
  destruct qid as [i|]; [|split; [auto | intros t' _ s Hs Hn; contradiction]].
  destruct (String.eqb t "" || String.eqb i "");
    [split; [auto | intros t' _ s Hs Hn; contradiction]|].
  destruct (find (json_blob_of i) (all_blobs st t)) as [jf|] eqn:Ej;
    [|split; [auto | intros t' _ s Hs Hn; contradiction]].
  apply find_some in Ej as [Ej _].
  destruct (find (fun b => includes ("/" ++ i ++ ".") (pathname b)
                           && negb (ends_with ".json" (pathname b))) (all_blobs st t))
    as [img|] eqn:Ei; cbn [snd].
  - apply find_some in Ei as [Ei _]. split.
    + intros s Hs. apply store_del_sub, store_del_sub in Hs. exact Hs.
    + intros t' Ht' s Hs Hn. injection Ht' as <-.
      destruct (String.eqb_spec (s_url s) (url jf)) as [Hu|Hu].
      * exists jf. split; [exact Ej | exact Hu].
      * exists img. split; [exact Ei|]. apply (store_del_removed (store_del st (url jf)));
          [|exact Hn].
        apply filter_In. split; [exact Hs|]. apply negb_true_iff, String.eqb_neq. exact Hu.
  - split.
    + intros s Hs. apply store_del_sub in Hs. exact Hs.
    + intros t' Ht' s Hs Hn. injection Ht' as <-.
      exists jf. split; [exact Ej|]. exact (store_del_removed _ _ _ Hs Hn).
Qed.

(** X15: a form [POST] answers 500 where the handler throws. A body that is
    not form data gives 500 without a write. With a non-empty text
    [title], [content] and [author]: a [file] entry that is a non-empty
    text has no [name], and the 500 comes before any write; a [tags] entry
    that is a file has no [split], and the 500 comes after the upload, so
    the store keeps the uploaded image when [file] is a file and is
    unchanged when there is no [file] entry. *)
Theorem POST_form_throws (rt : runtime) (st : list stored) :
  (forall t, t <> "" ->
     POST rt (Some t) (PostForm None) st = (mkMutResponse 500 (MutError "갤러리 생성 실패"), st)) /\
  (forall t f ti co au fs, t <> "" ->
     form_get f "title" = Some (FText ti) -> form_get f "content" = Some (FText co) ->
     form_get f "author" = Some (FText au) -> ti <> "" -> co <> "" -> au <> "" ->
     form_get f "file" = Some (FText fs) -> fs <> "" ->
     POST rt (Some t) (PostForm (Some f)) st =
       (mkMutResponse 500 (MutError "갤러리 생성 실패"), st)) /\
  (forall t f ti co au tg, t <> "" ->
     form_get f "title" = Some (FText ti) -> form_get f "content" = Some (FText co) ->
     form_get f "author" = Some (FText au) -> ti <> "" -> co <> "" -> au <> "" ->
     form_get f "tags" = Some (FFile tg) ->
     (forall n, form_get f "file" = Some (FFile n) ->
        POST rt (Some t) (PostForm (Some f)) st =
          (mkMutResponse 500 (MutError "갤러리 생성 실패"),
           store_put (rt_base rt) st (image_path rt t n) None)) /\
     (form_get f "file" = None ->
        POST rt (Some t) (PostForm (Some f)) st =
          (mkMutResponse 500 (MutError "갤러리 생성 실패"), st))).
Proof.
  split; [|split].
  - intros t Ht. unfold POST. rewrite (proj2 (String.eqb_neq t "") Ht). reflexivity.
  - intros t f ti co au fs Ht H1 H2 H3 N1 N2 N3 Hf Hfs. unfold POST.
    rewrite (proj2 (String.eqb_neq t "") Ht), H1, H2, H3. cbn [form_truthy].
    rewrite (proj2 (String.eqb_neq ti "") N1), (proj2 (String.eqb_neq co "") N2),
      (proj2 (String.eqb_neq au "") N3). cbn [negb andb]. cbv zeta.
    rewrite Hf, (proj2 (String.eqb_neq fs "") Hfs). reflexivity.
  - intros t f ti co au tg Ht H1 H2 H3 N1 N2 N3 Htg.
    assert (Hi : forall i a b c img, form_item rt t i f a b c img = None)
      by (intros; unfold form_item, form_tags; rewrite Htg; reflexivity).
    unfold POST.
    rewrite (proj2 (String.eqb_neq t "") Ht), H1, H2, H3. cbn [form_truthy].
    rewrite (proj2 (String.eqb_neq ti "") N1), (proj2 (String.eqb_neq co "") N2),
      (proj2 (String.eqb_neq au "") N3). cbn [negb andb]. cbv zeta.
    split.
    + intros n Hf. rewrite Hf. cbv beta iota. rewrite Hi. reflexivity.
    + intros Hf. rewrite Hf. cbv beta iota. rewrite Hi. reflexivity.
Qed.

(* ------------------------------------------------------------------ *)
(** ** Witnesses: the claims' theorems at concrete inputs *)

Lemma normalize_published_latch_witness :
  normalize "gallery" sample_now (JObj sample_raw) = Some sample_item /\
  (isPublished sample_item = true <->
   lookup "isPublished" sample_raw = Some (JBool true) \/
   status sample_item = Some "published").
Proof.
  assert (H : normalize "gallery" sample_now (JObj sample_raw) = Some sample_item)
    by reflexivity.
  split; [exact H | exact (proj1 normalize_published_latch _ _ _ _ H)].
Defined.

Lemma normalize_status_closed_witness :
  normalize "gallery" sample_now (JObj sample_raw) = Some sample_item /\
  exists s, status sample_item = Some s /\ In s status_values /\
    (forall s0, lookup "status" sample_raw = Some (JStr s0) ->
                In s0 status_values -> s = s0) /\
    ((forall s0, lookup "status" sample_raw = Some (JStr s0) -> ~ In s0 status_values) ->
     (lookup "isPublished" sample_raw = Some (JBool true) -> s = "published") /\
     (lookup "isPublished" sample_raw <> Some (JBool true) -> s = "development")).
Proof.
  assert (H : normalize "gallery" sample_now (JObj sample_raw) = Some sample_item)
    by reflexivity.
  split; [exact H | exact (normalize_status_closed _ _ _ _ H)].
Defined.

Lemma normalize_rejects_witness :
  (forall r, JNull <> JObj r) /\ normalize "gallery" sample_now JNull = None.
Proof.
  assert (H : forall r, JNull <> JObj r) by (intros r; discriminate).
  split; [exact H | exact (proj1 (normalize_rejects "gallery" sample_now) JNull H)].
Defined.

Lemma normalize_modern_alias_nonempty_witness :
  normalize "gallery" sample_now (JObj sample_raw) = Some sample_item /\
  alias_resolved sample_raw "title" "name" (title sample_item) /\
  alias_resolved sample_raw "author" "developer" (author sample_item) /\
  alias_resolved sample_raw "content" "description" (content sample_item).
Proof.
  assert (H : normalize "gallery" sample_now (JObj sample_raw) = Some sample_item)
    by reflexivity.
  split; [exact H | exact (normalize_modern_alias_nonempty _ _ _ _ H)].
Defined.

Lemma normalize_image_priority_witness :
  normalize "gallery" sample_now (JObj sample_raw) = Some sample_item /\
  (forall s, getStr sample_raw "imageUrl" = Some s -> s <> "" ->
             imageUrl sample_item = Some s) /\
  (falsy (getStr sample_raw "imageUrl") ->
   forall s, getStr sample_raw "iconUrl" = Some s -> s <> "" ->
             imageUrl sample_item = Some s) /\
  (falsy (getStr sample_raw "imageUrl") -> falsy (getStr sample_raw "iconUrl") ->
   imageUrl sample_item = hd_error (getArrStr sample_raw "screenshotUrls")) /\
  (getArrStr sample_raw "screenshotUrls" <> [] ->
   screenshotUrls sample_item = Some (getArrStr sample_raw "screenshotUrls")) /\
  (getArrStr sample_raw "screenshotUrls" = [] ->
   (forall s, imageUrl sample_item = Some s -> s <> "" ->
              screenshotUrls sample_item = Some [s]) /\
   (falsy (imageUrl sample_item) -> screenshotUrls sample_item = Some [])).
Proof.
  assert (H : normalize "gallery" sample_now (JObj sample_raw) = Some sample_item)
    by reflexivity.
  split; [exact H | exact (normalize_image_priority _ _ _ _ H)].
Defined.

Lemma listing_filter_membership_witness :
  exists items, collect_items sample_env "featured" = Some items /\
  (("featured" = "gallery" \/ "featured" = "normal") ->
   GET sample_env iso_time_value (Some "featured")
     = mkResponse 200 (ItemsBody (listing iso_time_value "featured" items)) /\
   forall x, In x (listing iso_time_value "featured" items) <->
             In x items /\ (isPublished x = true \/ status x = Some "in-review")) /\
  (("featured" = "featured" \/ "featured" = "events") ->
   GET sample_env iso_time_value (Some "featured")
     = mkResponse 200 (ItemsBody (listing iso_time_value "featured" items)) /\
   forall x, In x (listing iso_time_value "featured" items) <->
             In x items /\ isPublished x = true).
Proof.
  assert (Hc : exists items, collect_items sample_env "featured" = Some items)
    by (eexists; reflexivity).
  destruct Hc as [items Hc]. exists items. split; [exact Hc|].
  exact (listing_filter_membership sample_env iso_time_value "featured" items Hc).
Defined.

Lemma listing_sorted_stable_witness :
  (forall x, In x (filter_items "featured" sample_dated) ->
             date_key iso_time_value x <> None) /\
  map id (listing iso_time_value "featured" sample_dated) = ["jun"; "jan"; "jan2"] /\
  Permutation (filter_items "featured" sample_dated)
              (listing iso_time_value "featured" sample_dated) /\
  sorted_desc iso_time_value (listing iso_time_value "featured" sample_dated) /\
  stable iso_time_value (filter_items "featured" sample_dated)
         (listing iso_time_value "featured" sample_dated).
Proof.
  assert (H : forall x, In x (filter_items "featured" sample_dated) ->
                        date_key iso_time_value x <> None).
  { intros x Hx. vm_compute in Hx. destruct Hx as [<-|[<-|[<-|[]]]];
      vm_compute; congruence. }
  split; [exact H|]. split; [vm_compute; reflexivity|].
  exact (listing_sorted_stable iso_time_value "featured" _ H).
Defined.

Lemma GET_error_signals_witness :
  "featured" <> "" /\
  (forall f, In f (folder_paths "featured") ->
             list_blobs sample_env (f ++ "/") <> None) /\
  exists items, collect_items sample_env "featured" = Some items /\
    GET sample_env iso_time_value (Some "featured")
      = mkResponse 200 (ItemsBody (listing iso_time_value "featured" items)).
Proof.
  assert (Ht : "featured" <> "") by discriminate.
  assert (Hl : forall f, In f (folder_paths "featured") ->
                         list_blobs sample_env (f ++ "/") <> None).
  { intros f Hf. simpl. destruct (String.eqb (f ++ "/") "gallery-featured/");
      discriminate. }
  split; [exact Ht | split; [exact Hl|]].
  exact (proj1 (proj2 (proj2 (proj2 (proj2 (GET_error_signals sample_env iso_time_value)))))
           "featured" Ht Hl).
Defined.

Lemma written_blob_listable_witness :
  In "normal" ["gallery"; "normal"] /\ In "gallery" ["gallery"; "normal"] /\
  exists fs,
    json_files (store_list (put_blob [] (mkBlob (json_blob_path (put_json_folder "normal")
                                                   "gallery-1" "" ) "https://blob.example/g1.json"))) "gallery"
      = Some fs /\
    In (mkBlob (json_blob_path (put_json_folder "normal") "gallery-1" "")
               "https://blob.example/g1.json") fs.
Proof.
  assert (Hw : In "normal" ["gallery"; "normal"]) by (right; left; reflexivity).
  assert (Hr : In "gallery" ["gallery"; "normal"]) by (left; reflexivity).
  split; [exact Hw | split; [exact Hr|]].
  exact (proj2 (proj2 (proj2 (proj2 written_blob_listable)))
           "normal" "gallery" [] "gallery-1" "" "https://blob.example/g1.json"
           (put_json_folder "normal") Hw Hr (or_intror eq_refl)).
Defined.

(* ------------------------------------------------------------------ *)
(** ** Witnesses: the handlers' theorems at concrete inputs *)

Lemma GET_unknown_type_empty_witness :
  "apps" <> "" /\ ~ In "apps" gallery_types /\
  GET (env_of_store sample_store sample_now) iso_time_value (Some "apps")
    = mkResponse 200 (ItemsBody []).
Proof.
  assert (H1 : "apps" <> "") by discriminate.
  assert (H2 : ~ In "apps" gallery_types) by (intros [H|[H|[H|[H|[]]]]]; discriminate H).
  split; [exact H1 | split; [exact H2|]].
  exact (GET_unknown_type_empty _ iso_time_value _ H1 H2).
Defined.

Lemma load_items_gallery_view_witness :
  ("normal" = "gallery" \/ "normal" = "normal") /\
  collect_items (env_of_store sample_store sample_now) "gallery"
    = Some (sample_store_items "gallery") /\
  length (sample_store_items "gallery") = 1%nat /\
  load_items "normal"
    (GET (env_of_store sample_store sample_now) iso_time_value (Some (query_type "normal")))
    = Some (listing iso_time_value "gallery" (sample_store_items "gallery")).
Proof.
  assert (Hv : "normal" = "gallery" \/ "normal" = "normal") by (right; reflexivity).
  assert (Hc : collect_items (env_of_store sample_store sample_now) "gallery"
                 = Some (sample_store_items "gallery")) by (vm_compute; reflexivity).
  split; [exact Hv | split; [exact Hc | split; [vm_compute; reflexivity|]]].
  exact (load_items_gallery_view _ iso_time_value _ _ Hv Hc).
Defined.

Lemma load_items_published_view_witness :
  ("featured" = "featured" \/ "featured" = "events") /\
  collect_items (env_of_store sample_store sample_now) "featured"
    = Some (sample_store_items "featured") /\
  length (sample_store_items "featured") = 2%nat /\
  exists shown,
    load_items "featured"
      (GET (env_of_store sample_store sample_now) iso_time_value (Some (query_type "featured")))
      = Some shown /\
    forall x, In x shown <->
      In x (sample_store_items "featured") /\ status x = Some "published".
Proof.
  assert (Hv : "featured" = "featured" \/ "featured" = "events") by (left; reflexivity).
  assert (Hc : collect_items (env_of_store sample_store sample_now) "featured"
                 = Some (sample_store_items "featured")) by (vm_compute; reflexivity).
  split; [exact Hv | split; [exact Hc | split; [vm_compute; reflexivity|]]].
  exact (load_items_published_view _ iso_time_value _ _ Hv Hc).
Defined.

Lemma POST_rejects_witness :
  ("featured" <> "" /\
   form_truthy (form_get [("title", FText "Weather"); ("content", FText "A weather app")] "title")
     && form_truthy (form_get [("title", FText "Weather"); ("content", FText "A weather app")]
                      "content")
     && form_truthy (form_get [("title", FText "Weather"); ("content", FText "A weather app")]
                      "author")
     = false) /\
  POST sample_rt (Some "featured")
    (PostForm (Some [("title", FText "Weather"); ("content", FText "A weather app")]))
    sample_store
    = (mkMutResponse 400 (MutError "필수 필드가 누락되었습니다"), sample_store).
Proof.
  assert (Ht : "featured" <> "") by discriminate.
  assert (Hf : form_truthy (form_get [("title", FText "Weather");
                                      ("content", FText "A weather app")] "title")
     && form_truthy (form_get [("title", FText "Weather");
                               ("content", FText "A weather app")] "content")
     && form_truthy (form_get [("title", FText "Weather");
                               ("content", FText "A weather app")] "author")
     = false) by reflexivity.
  split; [split; [exact Ht | exact Hf]|].
  exact (proj1 (proj2 (proj2 (POST_rejects sample_rt sample_store))) _ _ Ht Hf).
Defined.

Lemma POST_json_read_back_witness :
  In "featured" gallery_types /\
  lookup "item" sample_post_body = Some (JObj sample_post_item) /\
  lookup "id" sample_post_item = Some (JStr "f3") /\ "f3" <> "" /\
  rt_path sample_rt (post_json_folder "featured" ++ "/" ++ "f3" ++ ".json") =
    json_blob_path (post_json_folder "featured") "f3" "" /\
  mut_status (fst (POST sample_rt (Some "featured") (PostJson (Some (JObj sample_post_body)))
                    sample_store)) = 200 /\
  exists items x,
    collect_items (env_of_store (snd (POST sample_rt (Some "featured")
                     (PostJson (Some (JObj sample_post_body))) sample_store)) sample_now)
      "featured" = Some items /\ In x items /\
    normalize "featured" sample_now
      (JObj (with_field "type" (JStr "featured") sample_post_item)) = Some x /\
    id x = "f3" /\ type x = "featured" /\
    GET (env_of_store (snd (POST sample_rt (Some "featured")
           (PostJson (Some (JObj sample_post_body))) sample_store)) sample_now)
        iso_time_value (Some "featured")
      = mkResponse 200 (ItemsBody (listing iso_time_value "featured" items)) /\
    In x (listing iso_time_value "featured" items).
Proof.
  assert (H1 : In "featured" gallery_types) by (right; right; left; reflexivity).
  assert (H2 : lookup "item" sample_post_body = Some (JObj sample_post_item)) by reflexivity.
  assert (H3 : lookup "id" sample_post_item = Some (JStr "f3")) by reflexivity.
  assert (H4 : "f3" <> "") by discriminate.
  assert (H5 : rt_path sample_rt (post_json_folder "featured" ++ "/" ++ "f3" ++ ".json") =
                 json_blob_path (post_json_folder "featured") "f3" "")
    by (vm_compute; reflexivity).
  destruct (POST_json_read_back sample_rt iso_time_value "featured" sample_now "f3" "" _ _
              sample_store H1 H2 H3 H4 H5)
    as [Hok (items & x & Hc & Hx & Hn & Hid & Hty & Hget & Hiff)].
  do 5 (split; [assumption|]). split; [exact Hok|].
  exists items, x. do 6 (split; [assumption|]).
  apply Hiff. left. vm_compute in Hn. injection Hn as <-. reflexivity.
Defined.

Lemma POST_form_read_back_witness :
  In "normal" gallery_types /\
  form_get sample_form "title" = Some (FText "Weather") /\
  form_get sample_form "content" = Some (FText "A weather app") /\
  form_get sample_form "author" = Some (FText "Kim") /\
  "Weather" <> "" /\ "A weather app" <> "" /\ "Kim" <> "" /\
  (forall s, form_get sample_form "file" = Some (FText s) -> s = "") /\
  (forall n, form_get sample_form "tags" <> Some (FFile n)) /\
  rt_base sample_rt <> "" /\
  rt_path sample_rt (post_json_folder "normal" ++ "/" ++ post_id sample_rt "normal" ++ ".json")
    = json_blob_path (post_json_folder "normal") (post_id sample_rt "normal") "" /\
  mut_status (fst (POST sample_rt (Some "normal") (PostForm (Some sample_form))
                    sample_store)) = 200 /\
  exists items x,
    collect_items (env_of_store (snd (POST sample_rt (Some "normal")
                     (PostForm (Some sample_form)) sample_store)) sample_now)
      "normal" = Some items /\ In x items /\
    id x = post_id sample_rt "normal" /\ title x = "Weather" /\
    content x = "A weather app" /\ author x = "Kim" /\ type x = "normal" /\
    status x = Some (form_status sample_form) /\
    isPublished x = form_published sample_form
                    || String.eqb (form_status sample_form) "published" /\
    GET (env_of_store (snd (POST sample_rt (Some "normal")
           (PostForm (Some sample_form)) sample_store)) sample_now)
        iso_time_value (Some "normal")
      = mkResponse 200 (ItemsBody (listing iso_time_value "normal" items)) /\
    (In x (listing iso_time_value "normal" items) <->
     form_published sample_form = true \/ form_status sample_form = "published" \/
     (("normal" = "gallery" \/ "normal" = "normal") /\
      form_status sample_form = "in-review")).
Proof.
  assert (H0 : In "normal" gallery_types) by (right; left; reflexivity).
  assert (H1 : form_get sample_form "title" = Some (FText "Weather")) by reflexivity.
  assert (H2 : form_get sample_form "content" = Some (FText "A weather app")) by reflexivity.
  assert (H3 : form_get sample_form "author" = Some (FText "Kim")) by reflexivity.
  assert (N1 : "Weather" <> "") by discriminate.
  assert (N2 : "A weather app" <> "") by discriminate.
  assert (N3 : "Kim" <> "") by discriminate.
  assert (Hfile : forall s, form_get sample_form "file" = Some (FText s) -> s = "")
    by (intros s Hs; vm_compute in Hs; discriminate Hs).
  assert (Htags : forall n, form_get sample_form "tags" <> Some (FFile n))
    by (intros n Hn; vm_compute in Hn; discriminate Hn).
  assert (Hb : rt_base sample_rt <> "") by (vm_compute; discriminate).
  assert (Hp : rt_path sample_rt (post_json_folder "normal" ++ "/" ++
                 post_id sample_rt "normal" ++ ".json")
               = json_blob_path (post_json_folder "normal") (post_id sample_rt "normal") "")
    by (vm_compute; reflexivity).
  do 11 (split; [assumption|]).
  exact (POST_form_read_back sample_rt iso_time_value "normal" sample_now "" sample_form
           _ _ _ sample_store H0 H1 H2 H3 N1 N2 N3 Hfile Htags Hb Hp).
Defined.

Lemma POST_form_image_witness :
  In "featured" gallery_types /\
  form_get sample_form "title" = Some (FText "Weather") /\
  form_get sample_form "content" = Some (FText "A weather app") /\
  form_get sample_form "author" = Some (FText "Kim") /\
  "Weather" <> "" /\ "A weather app" <> "" /\ "Kim" <> "" /\
  (forall s, form_get sample_form "file" = Some (FText s) -> s = "") /\
  (forall n, form_get sample_form "tags" <> Some (FFile n)) /\
  rt_base sample_rt <> "" /\
  rt_path sample_rt (post_json_folder "featured" ++ "/" ++ post_id sample_rt "featured" ++ ".json")
    = json_blob_path (post_json_folder "featured") (post_id sample_rt "featured") "" /\
  form_file sample_form = Some "shot.png" /\
  image_path sample_rt "featured" "shot.png" <>
    json_blob_path (post_json_folder "featured") (post_id sample_rt "featured") "" /\
  In (mkStored (image_path sample_rt "featured" "shot.png")
        (rt_base sample_rt ++ image_path sample_rt "featured" "shot.png") None)
     (snd (POST sample_rt (Some "featured") (PostForm (Some sample_form)) sample_store)) /\
  exists items x,
    collect_items (env_of_store (snd (POST sample_rt (Some "featured")
                     (PostForm (Some sample_form)) sample_store)) sample_now)
      "featured" = Some items /\ In x items /\ id x = post_id sample_rt "featured" /\
    imageUrl x = Some (rt_base sample_rt ++ image_path sample_rt "featured" "shot.png") /\
    screenshotUrls x =
      Some [rt_base sample_rt ++ image_path sample_rt "featured" "shot.png"].
Proof.
  assert (H0 : In "featured" gallery_types) by (right; right; left; reflexivity).
  assert (H1 : form_get sample_form "title" = Some (FText "Weather")) by reflexivity.
  assert (H2 : form_get sample_form "content" = Some (FText "A weather app")) by reflexivity.
  assert (H3 : form_get sample_form "author" = Some (FText "Kim")) by reflexivity.
  assert (N1 : "Weather" <> "") by discriminate.
  assert (N2 : "A weather app" <> "") by discriminate.
  assert (N3 : "Kim" <> "") by discriminate.
  assert (Hfile : forall s, form_get sample_form "file" = Some (FText s) -> s = "")
    by (intros s Hs; vm_compute in Hs; discriminate Hs).
  assert (Htags : forall n, form_get sample_form "tags" <> Some (FFile n))
    by (intros n Hn; vm_compute in Hn; discriminate Hn).
  assert (Hb : rt_base sample_rt <> "") by (vm_compute; discriminate).
  assert (Hp : rt_path sample_rt (post_json_folder "featured" ++ "/" ++
                 post_id sample_rt "featured" ++ ".json")
               = json_blob_path (post_json_folder "featured") (post_id sample_rt "featured") "")
    by (vm_compute; reflexivity).
  assert (Hff : form_file sample_form = Some "shot.png") by reflexivity.
  assert (Hd : image_path sample_rt "featured" "shot.png" <>
                 json_blob_path (post_json_folder "featured") (post_id sample_rt "featured") "")
    by (vm_compute; discriminate).
  destruct (POST_form_image sample_rt "featured" sample_now "" sample_form
              _ _ _ sample_store H0 H1 H2 H3 N1 N2 N3 Hfile Htags Hb Hp) as [Hin Hread].
  do 13 (split; [assumption|]).
  split; [exact (Hin "shot.png" Hff Hd) | rewrite Hff in Hread; exact Hread].
Defined.

Lemma POST_json_numeric_id_unlisted_witness :
  "events" <> "" /\ lookup "item" sample_num_body = Some (JObj sample_num_item) /\
  lookup "id" sample_num_item = Some (JNum (7 # 1)) /\ ~ ((7 # 1) == 0)%Q /\
  POST sample_rt (Some "events") (PostJson (Some (JObj sample_num_body))) sample_store =
    (mkMutResponse 200 (MutItem (JObj (with_field "type" (JStr "events") sample_num_item))
       (rt_base sample_rt ++ rt_path sample_rt (post_json_folder "events" ++ "/" ++
          rt_num_str sample_rt (7 # 1) ++ ".json"))),
     store_put (rt_base sample_rt) sample_store
       (rt_path sample_rt (post_json_folder "events" ++ "/" ++
          rt_num_str sample_rt (7 # 1) ++ ".json"))
       (Some (JObj (with_field "type" (JStr "events") sample_num_item)))) /\
  items_of_data "events" sample_now
    (JObj (with_field "type" (JStr "events") sample_num_item)) = [].
Proof.
  assert (H1 : "events" <> "") by discriminate.
  assert (H2 : lookup "item" sample_num_body = Some (JObj sample_num_item)) by reflexivity.
  assert (H3 : lookup "id" sample_num_item = Some (JNum (7 # 1))) by reflexivity.
  assert (H4 : ~ ((7 # 1) == 0)%Q) by (intros H; vm_compute in H; discriminate H).
  do 4 (split; [assumption|]).
  exact (POST_json_numeric_id_unlisted sample_rt "events" sample_now (7 # 1) _ _ sample_store
           H1 H2 H3 H4).
Defined.

Lemma PUT_rejects_witness :
  ("featured" <> "" /\
   lookup "item" [("item", JObj [("id", JStr "zz")])] = Some (JObj [("id", JStr "zz")]) /\
   lookup "id" [("id", JStr "zz")] = Some (JStr "zz") /\ json_truthy (JStr "zz") = true /\
   js_string (rt_num_str sample_rt) (JStr "zz") = Some "zz" /\
   (forall s, In s sample_store -> includes ("/" ++ "zz" ++ ".json") (s_path s) = false)) /\
  PUT sample_rt (Some "featured") (Some (JObj [("item", JObj [("id", JStr "zz")])]))
      sample_store = (mkMutResponse 404 (MutError "Item not found"), sample_store) /\
  (lookup "item" [("item", JObj [("id", JObj [("toString", JNum 1)])])]
     = Some (JObj [("id", JObj [("toString", JNum 1)])]) /\
   lookup "id" [("id", JObj [("toString", JNum 1)])] = Some (JObj [("toString", JNum 1)]) /\
   json_truthy (JObj [("toString", JNum 1)]) = true /\
   js_string (rt_num_str sample_rt) (JObj [("toString", JNum 1)]) = None /\
   (exists b, In b (all_blobs sample_store "featured") /\
              ends_with ".json" (pathname b) = true)) /\
  PUT sample_rt (Some "featured")
      (Some (JObj [("item", JObj [("id", JObj [("toString", JNum 1)])])])) sample_store
    = (mkMutResponse 500 (MutError "갤러리 편집 실패"), sample_store).
Proof.
  assert (H1 : "featured" <> "") by discriminate.
  assert (H2 : lookup "item" [("item", JObj [("id", JStr "zz")])]
                 = Some (JObj [("id", JStr "zz")])) by reflexivity.
  assert (H3 : lookup "id" [("id", JStr "zz")] = Some (JStr "zz")) by reflexivity.
  assert (H4 : json_truthy (JStr "zz") = true) by reflexivity.
  assert (H5 : js_string (rt_num_str sample_rt) (JStr "zz") = Some "zz") by reflexivity.
  assert (H6 : forall s, In s sample_store -> includes ("/" ++ "zz" ++ ".json") (s_path s) = false)
    by (intros s Hs; destruct Hs as [<-|[<-|[<-|[]]]]; vm_compute; reflexivity).
  assert (K2 : lookup "item" [("item", JObj [("id", JObj [("toString", JNum 1)])])]
                 = Some (JObj [("id", JObj [("toString", JNum 1)])])) by reflexivity.
  assert (K3 : lookup "id" [("id", JObj [("toString", JNum 1)])]
                 = Some (JObj [("toString", JNum 1)])) by reflexivity.
  assert (K4 : json_truthy (JObj [("toString", JNum 1)]) = true) by reflexivity.
  assert (K5 : js_string (rt_num_str sample_rt) (JObj [("toString", JNum 1)]) = None)
    by reflexivity.
  assert (K6 : exists b, In b (all_blobs sample_store "featured") /\
                         ends_with ".json" (pathname b) = true)
    by (eexists; split; [vm_compute; right; left; reflexivity | reflexivity]).
  pose proof (PUT_rejects sample_rt sample_store) as (_ & _ & _ & _ & C404 & C500).
  split; [repeat split; assumption|]. split; [exact (C404 _ _ _ _ _ H1 H2 H3 H4 H5 H6)|].
  split; [repeat split; assumption|].
  exact (proj1 (C500 _ _ _ _ H1 K2 K3 K4 K5) K6).
Defined.

Lemma PUT_read_back_witness :
  In "featured" gallery_types /\
  lookup "item" sample_put_body = Some (JObj sample_put_item) /\
  lookup "id" sample_put_item = Some (JStr "f1") /\ "f1" <> "" /\
  In (sample_blob "gallery-featured/f1.json"
        [("id", JStr "f1"); ("title", JStr "Clock"); ("status", JStr "published")])
     sample_store /\
  In "gallery-featured" (folder_paths "featured") /\
  s_path (sample_blob "gallery-featured/f1.json"
        [("id", JStr "f1"); ("title", JStr "Clock"); ("status", JStr "published")])
    = "gallery-featured" ++ "/" ++ "f1" ++ ".json" /\
  rt_path sample_rt (put_json_folder "featured" ++ "/" ++ "f1" ++ ".json") =
    json_blob_path (put_json_folder "featured") "f1" "" /\
  mut_status (fst (PUT sample_rt (Some "featured") (Some (JObj sample_put_body))
                    sample_store)) = 200 /\
  store_fetch (snd (PUT sample_rt (Some "featured") (Some (JObj sample_put_body)) sample_store))
    (rt_base sample_rt ++ json_blob_path (put_json_folder "featured") "f1" "")
    = FetchResponse true (Some (JObj sample_put_item)) /\
  (exists b, In b (all_blobs sample_store "featured") /\ json_blob_of "f1" b = true /\
     forall s, In s (snd (PUT sample_rt (Some "featured") (Some (JObj sample_put_body))
                           sample_store)) ->
               s_url s = url b ->
               s_path s = json_blob_path (put_json_folder "featured") "f1" "") /\
  exists items x,
    collect_items (env_of_store (snd (PUT sample_rt (Some "featured")
                     (Some (JObj sample_put_body)) sample_store)) sample_now) "featured"
      = Some items /\ In x items /\
    normalize "featured" sample_now (JObj sample_put_item) = Some x.
Proof.
  assert (H1 : In "featured" gallery_types) by (right; right; left; reflexivity).
  assert (H2 : lookup "item" sample_put_body = Some (JObj sample_put_item)) by reflexivity.
  assert (H3 : lookup "id" sample_put_item = Some (JStr "f1")) by reflexivity.
  assert (H4 : "f1" <> "") by discriminate.
  assert (H5 : In (sample_blob "gallery-featured/f1.json"
        [("id", JStr "f1"); ("title", JStr "Clock"); ("status", JStr "published")])
     sample_store) by (right; left; reflexivity).
  assert (H6 : In "gallery-featured" (folder_paths "featured")) by (left; reflexivity).
  assert (H7 : s_path (sample_blob "gallery-featured/f1.json"
        [("id", JStr "f1"); ("title", JStr "Clock"); ("status", JStr "published")])
    = "gallery-featured" ++ "/" ++ "f1" ++ ".json") by reflexivity.
  assert (H8 : rt_path sample_rt (put_json_folder "featured" ++ "/" ++ "f1" ++ ".json") =
                 json_blob_path (put_json_folder "featured") "f1" "")
    by (vm_compute; reflexivity).
  do 8 (split; [assumption|]).
  exact (PUT_read_back sample_rt "featured" sample_now "f1" "" "gallery-featured" _ _ _
           sample_store H1 H2 H3 H4 H5 H6 H7 H8).
Defined.

Lemma DELETE_rejects_witness :
  ("featured" <> "" /\ "zz" <> "" /\
   forall s, In s sample_store -> includes ("/" ++ "zz" ++ ".json") (s_path s) = false) /\
  DELETE (Some "featured") (Some "zz") sample_store
    = (mkMutResponse 404 (MutError "Item not found"), sample_store).
Proof.
  assert (H1 : "featured" <> "") by discriminate.
  assert (H2 : "zz" <> "") by discriminate.
  assert (H3 : forall s, In s sample_store -> includes ("/" ++ "zz" ++ ".json") (s_path s) = false)
    by (intros s Hs; destruct Hs as [<-|[<-|[<-|[]]]]; vm_compute; reflexivity).
  split; [split; [exact H1 | split; [exact H2 | exact H3]]|].
  exact (proj2 (proj2 (proj2 (proj2 (DELETE_rejects sample_store)))) _ _ H1 H2 H3).
Defined.

Lemma DELETE_undoes_POST_form_witness :
  In "events" gallery_types /\
  form_get sample_form "title" = Some (FText "Weather") /\
  form_get sample_form "content" = Some (FText "A weather app") /\
  form_get sample_form "author" = Some (FText "Kim") /\
  "Weather" <> "" /\ "A weather app" <> "" /\ "Kim" <> "" /\
  (forall s, form_get sample_form "file" = Some (FText s) -> s = "") /\
  (forall n, form_get sample_form "tags" <> Some (FFile n)) /\
  rt_path sample_rt (post_json_folder "events" ++ "/" ++ post_id sample_rt "events" ++ ".json")
    = post_json_folder "events" ++ "/" ++ post_id sample_rt "events" ++ ".json" /\
  (forall n, form_file sample_form = Some n ->
     image_path sample_rt "events" n =
       post_json_folder "events" ++ "/" ++ post_id sample_rt "events" ++ "." ++
         last (split_on "." n) "" /\
     ends_with ".json" (image_path sample_rt "events" n) = false) /\
  (forall s, In s sample_store -> s_url s = rt_base sample_rt ++ s_path s) /\
  (forall s, In s sample_store ->
     includes ("/" ++ post_id sample_rt "events" ++ ".") (s_path s) = false) /\
  DELETE (Some "events") (Some (post_id sample_rt "events"))
    (snd (POST sample_rt (Some "events") (PostForm (Some sample_form)) sample_store))
  = (mkMutResponse 200 MutDone, sample_store).
Proof.
  assert (H0 : In "events" gallery_types) by (right; right; right; left; reflexivity).
  assert (H1 : form_get sample_form "title" = Some (FText "Weather")) by reflexivity.
  assert (H2 : form_get sample_form "content" = Some (FText "A weather app")) by reflexivity.
  assert (H3 : form_get sample_form "author" = Some (FText "Kim")) by reflexivity.
  assert (N1 : "Weather" <> "") by discriminate.
  assert (N2 : "A weather app" <> "") by discriminate.
  assert (N3 : "Kim" <> "") by discriminate.
  assert (Hfile : forall s, form_get sample_form "file" = Some (FText s) -> s = "")
    by (intros s Hs; vm_compute in Hs; discriminate Hs).
  assert (Htags : forall n, form_get sample_form "tags" <> Some (FFile n))
    by (intros n Hn; vm_compute in Hn; discriminate Hn).
  assert (Hj : rt_path sample_rt (post_json_folder "events" ++ "/" ++
                 post_id sample_rt "events" ++ ".json")
               = post_json_folder "events" ++ "/" ++ post_id sample_rt "events" ++ ".json")
    by reflexivity.
  assert (Hi : forall n, form_file sample_form = Some n ->
     image_path sample_rt "events" n =
       post_json_folder "events" ++ "/" ++ post_id sample_rt "events" ++ "." ++
         last (split_on "." n) "" /\
     ends_with ".json" (image_path sample_rt "events" n) = false)
    by (intros n Hn; injection Hn as Hn; subst n; split; vm_compute; reflexivity).
  assert (Hw : forall s, In s sample_store -> s_url s = rt_base sample_rt ++ s_path s)
    by (intros s Hs; destruct Hs as [<-|[<-|[<-|[]]]]; reflexivity).
  assert (Hf : forall s, In s sample_store ->
     includes ("/" ++ post_id sample_rt "events" ++ ".") (s_path s) = false)
    by (intros s Hs; destruct Hs as [<-|[<-|[<-|[]]]]; vm_compute; reflexivity).
  do 13 (split; [assumption|]).
  exact (DELETE_undoes_POST_form sample_rt "events" sample_form _ _ _
           sample_store H0 H1 H2 H3 N1 N2 N3 Hfile Htags Hj Hi Hw Hf).
Defined.

Lemma POST_form_throws_witness :
  ("gallery" <> "" /\
   form_get sample_tags_file_form "title" = Some (FText "Weather") /\
   form_get sample_tags_file_form "content" = Some (FText "A weather app") /\
   form_get sample_tags_file_form "author" = Some (FText "Kim") /\
   "Weather" <> "" /\ "A weather app" <> "" /\ "Kim" <> "" /\
   form_get sample_tags_file_form "tags" = Some (FFile "tags.txt") /\
   form_get sample_tags_file_form "file" = Some (FFile "shot.png")) /\
  POST sample_rt (Some "gallery") (PostForm (Some sample_tags_file_form)) sample_store =
    (mkMutResponse 500 (MutError "갤러리 생성 실패"),
     store_put (rt_base sample_rt) sample_store (image_path sample_rt "gallery" "shot.png") None).
Proof.
  assert (Ht : "gallery" <> "") by discriminate.
  assert (H1 : form_get sample_tags_file_form "title" = Some (FText "Weather")) by reflexivity.
  assert (H2 : form_get sample_tags_file_form "content" = Some (FText "A weather app"))
    by reflexivity.
  assert (H3 : form_get sample_tags_file_form "author" = Some (FText "Kim")) by reflexivity.
  assert (N1 : "Weather" <> "") by discriminate.
  assert (N2 : "A weather app" <> "") by discriminate.
  assert (N3 : "Kim" <> "") by discriminate.
  assert (Htg : form_get sample_tags_file_form "tags" = Some (FFile "tags.txt")) by reflexivity.
  assert (Hf : form_get sample_tags_file_form "file" = Some (FFile "shot.png")) by reflexivity.
  split; [repeat split; assumption|].
  exact (proj1 (proj2 (proj2 (POST_form_throws sample_rt sample_store)) _ _ _ _ _ _
                  Ht H1 H2 H3 N1 N2 N3 Htg) _ Hf).
Defined.
